(** * Real-estate price prediction app: feature alignment and feedback store

    A shallow embedding of [src/app.py]: the feature aligner
    ([build_features_df]), the prediction handler of the Home tab and the
    feedback board ([load_feedback], [save_feedback], the feedback form). *)

From Stdlib Require Import ZArith NArith List String Ascii Bool Lia.
From Stdlib Require Import Permutation.
Import ListNotations.

Local Open Scope Z_scope.

(** ** Python strings *)

(** A Python [str] is a sequence of Unicode code points. *)
Module PyStr.

Definition char := N.
Definition str := list char.

(** A source literal. Every literal used below is plain ASCII; the few
    symbols outside ASCII are written as code points. *)
Definition py (s : string) : str :=
  List.map N_of_ascii (list_ascii_of_string s).
Arguments py s%_string.

Fixpoint str_eqb (a b : str) : bool :=
  match a, b with
  | [], [] => true
  | x :: a', y :: b' => N.eqb x y && str_eqb a' b'
  | _, _ => false
  end.

(** Truth value of a string: the empty string is false. *)
Definition truthy (s : str) : bool :=
  match s with [] => false | _ :: _ => true end.

(** [a or b] on strings. *)
Definition or_else (a b : str) : str := if truthy a then a else b.

(** The characters [str.strip()] removes when called without argument:
    the interpreter's whitespace table. *)
Definition isspace (c : char) : bool :=
  ((9 <=? c) && (c <=? 13) || (28 <=? c) && (c <=? 32)
   || (c =? 133) || (c =? 160) || (c =? 5760)
   || (8192 <=? c) && (c <=? 8202)
   || (c =? 8232) || (c =? 8233) || (c =? 8239) || (c =? 8287)
   || (c =? 12288))%N.

Fixpoint lstrip (s : str) : str :=
  match s with
  | [] => []
  | c :: s' => if isspace c then lstrip s' else s
  end.

Definition rstrip (s : str) : str := rev (lstrip (rev s)).

Definition strip (s : str) : str := rstrip (lstrip s).

End PyStr.
Export PyStr.

(** ** Results of fallible code *)

Inductive Result (E A : Type) : Type :=
| Ok (a : A)
| Raise (e : E).
Arguments Ok {E A} a.
Arguments Raise {E A} e.

Definition rbind {E A B} (r : Result E A) (k : A -> Result E B) : Result E B :=
  match r with
  | Ok a => k a
  | Raise e => Raise e
  end.

Declare Scope result_scope.
Delimit Scope result_scope with result.
Notation "x <- r ;; k" := (rbind r (fun x => k))
  (at level 61, r at next level, right associativity) : result_scope.

(** [KeyError]: the keys that were looked up and not found. *)
Inductive KeyError : Type := MkKeyError (keys : list str).

(** ** Dictionaries and one-row data frames *)

Module Dict.

(** A [dict] with string keys, in insertion order. *)
Definition dict (V : Type) := list (str * V).

Definition len {V} (d : dict V) : Z := Z.of_nat (List.length d).

(** [d[k]] *)
Fixpoint getitem {V} (d : dict V) (k : str) : Result KeyError V :=
  match d with
  | [] => Raise (MkKeyError [k])
  | (k', v) :: d' => if str_eqb k' k then Ok v else getitem d' k
  end.

Definition has_key {V} (d : dict V) (k : str) : bool :=
  existsb (fun kv => str_eqb (fst kv) k) d.

(** [{**d, k: v}]: a copy of [d] in which [k] is bound to [v]; an existing
    key keeps its position, a new one goes last. *)
Definition with_item {V} (d : dict V) (k : str) (v : V) : dict V :=
  if has_key d k
  then List.map (fun kv => if str_eqb (fst kv) k then (fst kv, v) else kv) d
  else d ++ [(k, v)].

End Dict.

Module Frame.

(** A [pandas.DataFrame] with a single row of integers: its columns, in
    order, each with the value of the row. *)
Definition DataFrame := list (str * Z).

(** [pd.DataFrame([vals])] *)
Definition of_row (vals : Dict.dict Z) : DataFrame := vals.

(** [X.columns] *)
Definition columns (X : DataFrame) : list str := List.map fst X.

(** [c in X.columns] *)
Definition contains (cols : list str) (c : str) : bool :=
  existsb (str_eqb c) cols.

(** [X[c] = v]: overwrite the column(s) labelled [c], or add one at the end. *)
Definition setitem (X : DataFrame) (c : str) (v : Z) : DataFrame :=
  if contains (columns X) c
  then List.map (fun kv => if str_eqb (fst kv) c then (fst kv, v) else kv) X
  else X ++ [(c, v)].

(** The columns of [X] labelled [c]. *)
Definition labelled (X : DataFrame) (c : str) : DataFrame :=
  List.filter (fun kv => str_eqb (fst kv) c) X.

(** [X[names]]: the columns named, in the order named; a name that labels
    no column is a [KeyError]. *)
Definition select (X : DataFrame) (names : list str) : Result KeyError DataFrame :=
  match List.filter (fun c => negb (contains (columns X) c)) names with
  | [] => Ok (List.flat_map (labelled X) names)
  | missing => Raise (MkKeyError missing)
  end.

End Frame.

(** ** The feature aligner (Home tab) *)

Module Aligner.
Import Frame.

(** The options of the select boxes. *)
Inductive YesNo : Type := Yes | No.
Inductive Furnishing : Type := Furnished | SemiFurnished | Unfurnished.

(** The string a select box returns for the chosen option. *)
Definition yesno_value (v : YesNo) : str :=
  match v with Yes => py "Yes" | No => py "No" end.

Definition furnishing_value (v : Furnishing) : str :=
  match v with
  | Furnished => py "Furnished"
  | SemiFurnished => py "Semi-Furnished"
  | Unfurnished => py "Unfurnished"
  end.

(** The widgets of the Home tab. *)
Record RawInput : Type := {
  area : Z;
  bedrooms : Z;
  bathrooms : Z;
  stories : Z;
  parking : Z;
  mainroad : YesNo;
  guestroom : YesNo;
  basement : YesNo;
  hotwaterheating : YesNo;
  airconditioning : YesNo;
  prefarea : YesNo;
  furnishingstatus : Furnishing;
  location : str
}.

(** The form as it is first shown: the default of each number input, the
    first option of each select box, an empty text input. *)
Definition default_input : RawInput :=
  {| area := 1500; bedrooms := 3; bathrooms := 2; stories := 2; parking := 1;
     mainroad := Yes; guestroom := Yes; basement := Yes; hotwaterheating := Yes;
     airconditioning := Yes; prefarea := Yes;
     furnishingstatus := Furnished; location := [] |}.

(** What the app reads off the loaded model:
    [getattr(model, "n_features_in_", None)] and
    [getattr(model, "feature_names_in_", None)]. *)
Record ModelSchema : Type := {
  expected_features : option Z;
  feature_names_in : option (list str)
}.

(** [yn = lambda v: 1 if v=="Yes" else 0] *)
Definition yn (v : str) : Z := if str_eqb v (py "Yes") then 1 else 0.

Definition base_vals (raw : RawInput) : Dict.dict Z :=
  [ (py "area", area raw); (py "bedrooms", bedrooms raw);
    (py "bathrooms", bathrooms raw); (py "stories", stories raw);
    (py "mainroad", yn (yesno_value (mainroad raw)));
    (py "guestroom", yn (yesno_value (guestroom raw)));
    (py "basement", yn (yesno_value (basement raw)));
    (py "hotwaterheating", yn (yesno_value (hotwaterheating raw)));
    (py "airconditioning", yn (yesno_value (airconditioning raw)));
    (py "parking", parking raw);
    (py "prefarea", yn (yesno_value (prefarea raw))) ].

Definition fs_map : Dict.dict Z :=
  [ (py "Furnished", 0); (py "Semi-Furnished", 1); (py "Unfurnished", 2) ].

(** [expected_features and expected_features == len(base_vals)+1]:
    [None] and [0] are false. *)
Definition wants_label (schema : ModelSchema) (raw : RawInput) : bool :=
  match expected_features schema with
  | None => false
  | Some n => negb (n =? 0) && (n =? Dict.len (base_vals raw) + 1)
  end.

(** The two branches of the [if] of [build_features_df]. *)
Definition label_frame (raw : RawInput) : Result KeyError DataFrame :=
  (code <- Dict.getitem fs_map (furnishing_value (furnishingstatus raw)) ;;
   Ok (of_row (Dict.with_item (base_vals raw) (py "furnishingstatus") code)))%result.

Definition onehot_frame (raw : RawInput) : DataFrame :=
  let furnished :=
    if str_eqb (furnishing_value (furnishingstatus raw)) (py "Furnished")
    then 1 else 0 in
  let semi :=
    if str_eqb (furnishing_value (furnishingstatus raw)) (py "Semi-Furnished")
    then 1 else 0 in
  of_row (Dict.with_item
            (Dict.with_item (base_vals raw) (py "furnishingstatus_furnished") furnished)
            (py "furnishingstatus_semi-furnished") semi).

Definition encode (schema : ModelSchema) (raw : RawInput) : Result KeyError DataFrame :=
  if wants_label schema raw then label_frame raw else Ok (onehot_frame raw).

(** [for c in feature_names_in: if c not in X_local.columns: X_local[c]=0] *)
Definition add_missing (X_local : DataFrame) (names : list str) : DataFrame :=
  List.fold_left
    (fun X c => if negb (contains (columns X) c) then setitem X c 0 else X)
    names X_local.

(** The [if feature_names_in is not None] block. *)
Definition align (schema : ModelSchema) (X_local : DataFrame) : Result KeyError DataFrame :=
  match feature_names_in schema with
  | Some names => select (add_missing X_local names) names
  | None => Ok X_local
  end.

Definition build_features_df (schema : ModelSchema) (raw : RawInput)
  : Result KeyError DataFrame :=
  (X_local <- encode schema raw ;;
   align schema X_local)%result.

End Aligner.

(** ** The running app: session state, feedback file, screen *)

Module App.
Import Frame Aligner.

(** Values read from and written to [feedback.json]. *)
#[warnings="-register-all"]
Inductive json : Type :=
| JNull
| JBool (b : bool)
| JInt (n : Z)
| JFloat (digits : str)
| JStr (s : str)
| JList (items : list json)
| JObj (members : list (str * json)).

(** An exception: its class, whether the class derives from [Exception],
    and [str(e)]. *)
Record PyExn : Type := {
  exn_class : str;
  is_Exception : bool;
  exn_text : str
}.

(** The text of a file, seen through [json.load]: either it is the
    serialisation of a value (what [json.dump] writes), or reading and
    parsing it raises. *)
Inductive FileText : Type :=
| Dumped (v : json)
| Garbled (e : PyExn).

(** [feedback.json] in the working directory: no such path, a file that
    opens, or a path that exists and that [open] refuses with [e] (a
    directory, a file without read permission). *)
Inductive File : Type :=
| Missing
| Present (text : FileText)
| Unopenable (e : PyExn).

(** One row of the History tab. *)
Record HistoryEntry : Type := {
  h_Location : str;
  h_Area : Z;
  h_Bedrooms : Z;
  h_Bathrooms : Z;
  h_Stories : Z;
  h_Parking : Z;
  h_Predicted_Price : str
}.

(** [st.session_state] *)
Record Session : Type := {
  logged_in : bool;
  page : str;
  history : list HistoryEntry;
  dark_mode : bool;
  feedback_submitted : bool
}.

(** The session state defaults set at the top of the script. *)
Definition initial_session : Session :=
  {| logged_in := false; page := py "Welcome"; history := [];
     dark_mode := false; feedback_submitted := false |}.

(** What the handlers put on the page. *)
Inductive Notice : Type :=
| success (body : str)
| warning (body : str)
| error (body : str).

Record World : Type := {
  session_state : Session;
  feedback_json : File;
  screen : list Notice
}.

(** Handlers: they change the world and may raise; what was changed before
    an exception stays changed. *)
Definition M (A : Type) : Type := World -> Result PyExn A * World.

Definition ret {A} (a : A) : M A := fun w => (Ok a, w).

Definition bind {A B} (m : M A) (k : A -> M B) : M B :=
  fun w =>
    match m w with
    | (Ok a, w') => k a w'
    | (Raise e, w') => (Raise e, w')
    end.

Definition lift {A} (r : Result PyExn A) : M A := fun w => (r, w).

(** [try: body  except C as e: handler], where [catches e] tells whether
    [e] is an instance of [C]. *)
Definition try_except {A} (body : M A) (catches : PyExn -> bool)
    (handler : PyExn -> M A) : M A :=
  fun w =>
    match body w with
    | (Ok a, w') => (Ok a, w')
    | (Raise e, w') => if catches e then handler e w' else (Raise e, w')
    end.

Declare Scope app_scope.
Delimit Scope app_scope with app.
Notation "x <- m ;; k" := (bind m (fun x => k))
  (at level 61, m at next level, right associativity) : app_scope.
Notation "m ;; k" := (bind m (fun _ => k))
  (at level 61, right associativity) : app_scope.

Definition show (n : Notice) : M unit :=
  fun w => (Ok tt, {| session_state := session_state w;
                      feedback_json := feedback_json w;
                      screen := screen w ++ [n] |}).

Definition update_session (f : Session -> Session) : M unit :=
  fun w => (Ok tt, {| session_state := f (session_state w);
                      feedback_json := feedback_json w;
                      screen := screen w |}).

(** [st.session_state.history.append(entry)] *)
Definition history_append (entry : HistoryEntry) : M unit :=
  update_session (fun s =>
    {| logged_in := logged_in s; page := page s;
       history := history s ++ [entry];
       dark_mode := dark_mode s;
       feedback_submitted := feedback_submitted s |}).

(** [st.session_state.feedback_submitted = b] *)
Definition set_feedback_submitted (b : bool) : M unit :=
  update_session (fun s =>
    {| logged_in := logged_in s; page := page s;
       history := history s;
       dark_mode := dark_mode s;
       feedback_submitted := b |}).

(** *** Feedback system functions *)

(** [os.path.exists("feedback.json")] *)
Definition path_exists : M bool :=
  fun w => (Ok (match feedback_json w with
                | Missing => false
                | Present _ => true
                | Unopenable _ => true
                end), w).

(** [open("feedback.json", "r")] *)
Definition open_read : M FileText :=
  fun w =>
    match feedback_json w with
    | Present text => (Ok text, w)
    | Unopenable e => (Raise e, w)
    | Missing =>
        (Raise {| exn_class := py "FileNotFoundError"; is_Exception := true;
                  exn_text := py "[Errno 2] No such file or directory: 'feedback.json'" |},
         w)
    end.

(** [json.load(f)] *)
Definition json_load (f : FileText) : M json :=
  match f with
  | Dumped v => ret v
  | Garbled e => lift (Raise e)
  end.

(** The bare [except:] catches every exception of [json.load]; the [open]
    is outside the [try]. *)
Definition load_feedback : M json :=
  (found <- path_exists ;;
   if found : bool
   then (f <- open_read ;;
         try_except (json_load f) (fun _ => true) (fun _ => ret (JList [])))
   else ret (JList []))%app.

(** [json.dump(feedback_list, f, indent=4)] into the file opened with ["w"]. *)
Definition save_feedback (feedback_list : json) : M unit :=
  fun w => (Ok tt, {| session_state := session_state w;
                      feedback_json := Present (Dumped feedback_list);
                      screen := screen w |}).

(** [type(v).__name__] *)
Definition type_name (v : json) : str :=
  match v with
  | JNull => py "NoneType"
  | JBool _ => py "bool"
  | JInt _ => py "int"
  | JFloat _ => py "float"
  | JStr _ => py "str"
  | JList _ => py "list"
  | JObj _ => py "dict"
  end.

(** [feedback_list.append(x)]: only a list has the method. *)
Definition append (feedback_list x : json) : Result PyExn json :=
  match feedback_list with
  | JList items => Ok (JList (items ++ [x]))
  | _ =>
      Raise {| exn_class := py "AttributeError"; is_Exception := true;
               exn_text := py "'" ++ type_name feedback_list
                           ++ py "' object has no attribute 'append'" |}
  end.

(** The record built from the form. *)
Definition new_feedback (name : str) (rating : Z) (feedback now : str) : json :=
  JObj [ (py "name", JStr (if truthy name then name else py "Anonymous"));
         (py "rating", JInt rating);
         (py "feedback", JStr feedback);
         (py "date", JStr now) ].

Definition thanks : str :=
  py "Thank you for your feedback! " ++ [128150%N].

Definition please : str :=
  py "Please share your feedback before submitting.".

(** The body of [with st.form("feedback_form")]; [now] is
    [datetime.datetime.now().strftime("%Y-%m-%d %H:%M:%S")]. *)
Definition feedback_form (name : str) (rating : Z) (feedback : str)
    (submitted : bool) (now : str) : M unit :=
  if submitted then
    if truthy (strip feedback) then
      (feedback_list <- load_feedback ;;
       feedback_list <- lift (append feedback_list
                                (new_feedback name rating feedback now)) ;;
       save_feedback feedback_list ;;
       set_feedback_submitted true ;;
       show (success thanks))%app
    else show (warning please)
  else ret tt.

(** *** Predict button *)

Section Predict.

(** The number the model returns, and the model itself:
    [predict X] is [model.predict(X)[0]], [format_price p] is [f"{p:,.0f}"]. *)
Variable price : Type.
Variable predict : DataFrame -> Result PyExn price.
Variable format_price : price -> Result PyExn str.

Definition rupee : str := [8360%N; 32%N].

Definition alert : str := [9888%N; 65039%N; 32%N].

Definition estimate (raw : RawInput) (shown : str) : str :=
  py "Estimated House Price in " ++ or_else (location raw) (py "your city")
  ++ py ": **" ++ rupee ++ shown ++ py "**".

(** The body of [if st.button("Predict Price")], [X] being the frame built
    just before. *)
Definition predict_price (raw : RawInput) (X : DataFrame) (pressed : bool)
  : M unit :=
  if pressed then
    try_except
      (pred <- lift (predict X) ;;
       shown <- lift (format_price pred) ;;
       show (success (estimate raw shown)) ;;
       shown' <- lift (format_price pred) ;;
       history_append
         {| h_Location := or_else (location raw) (py "Unknown");
            h_Area := area raw; h_Bedrooms := bedrooms raw;
            h_Bathrooms := bathrooms raw; h_Stories := stories raw;
            h_Parking := parking raw;
            h_Predicted_Price := rupee ++ shown' |})%app
      is_Exception
      (fun e => show (error (alert ++ py "Prediction error: " ++ exn_text e)))
  else ret tt.

End Predict.

End App.

(** ** The feedback board (below the form) *)

Module Board.
Import App.

(** What the board puts on the page: a card with the four values
    interpolated into its markup, or the notice of an empty board. *)
Inductive Shown : Type :=
| card (name : json) (stars : str) (feedback date : json)
| info (body : str).

Definition no_attribute (v : json) (attr : str) : PyExn :=
  {| exn_class := py "AttributeError"; is_Exception := true;
     exn_text := py "'" ++ type_name v ++ py "' object has no attribute '"
                 ++ attr ++ py "'" |}.

Fixpoint lookup (members : list (str * json)) (key : str) : option json :=
  match members with
  | [] => None
  | (k, v) :: rest => if str_eqb k key then Some v else lookup rest key
  end.

(** [fb.get(key, default)]: a method of dictionaries only. *)
Definition get (fb : json) (key : str) (default : json) : Result PyExn json :=
  match fb with
  | JObj members =>
      Ok (match lookup members key with Some v => v | None => default end)
  | _ => Raise (no_attribute fb (py "get"))
  end.

(** [s * n]: [n] copies of [s], none when [n] is not positive; [n] has to
    be an integer ([True] and [False] count as 1 and 0) that fits an index,
    a signed 64-bit number. Within that range the copies are taken to fit in
    memory. *)
Definition times (s : str) (n : json) : Result PyExn str :=
  match n with
  | JInt k =>
      if (-9223372036854775808 <=? k) && (k <=? 9223372036854775807)
      then Ok (List.concat (List.repeat s (Z.to_nat k)))
      else
        Raise {| exn_class := py "OverflowError"; is_Exception := true;
                 exn_text := py "cannot fit 'int' into an index-sized integer" |}
  | JBool b => Ok (if b then s else [])
  | _ =>
      Raise {| exn_class := py "TypeError"; is_Exception := true;
               exn_text := py "can't multiply sequence by non-int of type '"
                           ++ type_name n ++ py "'" |}
  end.

Definition star : str := [11088%N].

(** The stars on a card. *)
Definition stars_of (c : Shown) : str :=
  match c with
  | card _ stars _ _ => stars
  | info _ => []
  end.

Definition no_feedback_yet : str :=
  py "No feedback yet. Be the first to share your experience!".

(** The body of the [for] loop up to [st.markdown]. *)
Definition render (fb : json) : Result PyExn Shown :=
  (rating <- get fb (py "rating") (JInt 5) ;;
   stars <- times star rating ;;
   name <- get fb (py "name") (JStr (py "Anonymous")) ;;
   feedback <- get fb (py "feedback") (JStr []) ;;
   date <- get fb (py "date") (JStr []) ;;
   Ok (card name stars feedback date))%result.

(** [for i, fb in enumerate(items): ...; if i >= 4: break], [i] being the
    index of the head of [items]: what got shown, and how the loop ended. *)
Fixpoint board_loop (i : Z) (items : list json)
  : list Shown * Result PyExn unit :=
  match items with
  | [] => ([], Ok tt)
  | fb :: rest =>
      match render fb with
      | Raise e => ([], Raise e)
      | Ok c =>
          if 4 <=? i then ([c], Ok tt)
          else let (cs, r) := board_loop (i + 1) rest in (c :: cs, r)
      end
  end.

Section Display.

(** Whether the float written with these digits is other than zero. *)
Variable float_nonzero : str -> bool.

(** [if feedback_list:] *)
Definition json_truthy (v : json) : bool :=
  match v with
  | JNull => false
  | JBool b => b
  | JInt n => negb (n =? 0)
  | JFloat digits => float_nonzero digits
  | JStr s => truthy s
  | JList items => match items with [] => false | _ :: _ => true end
  | JObj members => match members with [] => false | _ :: _ => true end
  end.

(** [reversed(feedback_list)]: a list backwards, the keys of a dictionary
    backwards, the characters of a string backwards. *)
Definition reversed (v : json) : Result PyExn (list json) :=
  match v with
  | JList items => Ok (rev items)
  | JObj members => Ok (rev (List.map (fun kv => JStr (fst kv)) members))
  | JStr s => Ok (rev (List.map (fun c => JStr [c]) s))
  | _ =>
      Raise {| exn_class := py "TypeError"; is_Exception := true;
               exn_text := py "'" ++ type_name v
                           ++ py "' object is not reversible" |}
  end.

Definition feedback_board (feedback_list : json)
  : list Shown * Result PyExn unit :=
  if json_truthy feedback_list then
    match reversed feedback_list with
    | Ok items => board_loop 0 items
    | Raise e => ([], Raise e)
    end
  else ([info no_feedback_yet], Ok tt).

(** [feedback_list = load_feedback()] and what follows it. *)
Definition show_feedback (w : World) : list Shown * Result PyExn unit :=
  match fst (load_feedback w) with
  | Ok feedback_list => feedback_board feedback_list
  | Raise e => ([], Raise e)
  end.

End Display.

End Board.

(** ** The price column of the chart (Visualization tab) *)

Module Chart.
Import App.

Fixpoint starts_with (prefix s : str) : bool :=
  match prefix, s with
  | [], _ => true
  | _ :: _, [] => false
  | p :: prefix', c :: s' => N.eqb p c && starts_with prefix' s'
  end.

(** [s.replace(old, new)] for a non-empty [old]: the occurrences of [old]
    found from left to right, without overlap; [skip] characters of an
    occurrence are still to be passed. *)
Fixpoint replace_from (skip : nat) (old new s : str) : str :=
  match s with
  | [] => []
  | c :: s' =>
      match skip with
      | S k => replace_from k old new s'
      | O =>
          if starts_with old s
          then new ++ replace_from (List.length old - 1) old new s'
          else c :: replace_from 0 old new s'
      end
  end.

Definition replace (s old new : str) : str := replace_from 0 old new s.

(** [.str.replace("Rs ","").str.replace(",","")], [Rs] being the rupee
    sign, on one cell of the column. *)
Definition clean_price (cell : str) : str :=
  replace (replace cell rupee []) (py ",") [].

End Chart.

(** ** Pages and what a session can do *)

Module Pages.
Import Frame Aligner App.

(** The [Get Started] button of the Welcome page. *)
Definition get_started (s : Session) : Session :=
  {| logged_in := true; page := py "App"; history := history s;
     dark_mode := dark_mode s; feedback_submitted := feedback_submitted s |}.

(** The [Confirm Logout] button of the Logout tab. *)
Definition confirm_logout (s : Session) : Session :=
  {| logged_in := false; page := py "Welcome"; history := history s;
     dark_mode := dark_mode s; feedback_submitted := feedback_submitted s |}.

(** [st.session_state.dark_mode = st.toggle(...)] *)
Definition set_dark_mode (b : bool) (s : Session) : Session :=
  {| logged_in := logged_in s; page := page s; history := history s;
     dark_mode := b; feedback_submitted := feedback_submitted s |}.

(** Which branch of [if page == "Welcome": ... elif logged_in: ...] runs. *)
Inductive View : Type := welcome_page | main_app | nothing.

Definition view (s : Session) : View :=
  if str_eqb (page s) (py "Welcome") then welcome_page
  else if logged_in s then main_app
  else nothing.

(** One run of the script, as far as the toggle and the two navigation
    buttons go: the position of the toggle, whether [Get Started] was
    pressed, whether the run gets as far as the Logout tab, and whether
    [Confirm Logout] was pressed. A button counts only in the branch that
    draws it. *)
Record Run : Type := {
  toggle : bool;
  get_started_pressed : bool;
  reaches_logout : bool;
  confirm_logout_pressed : bool
}.

Definition navigate (r : Run) (s : Session) : Session :=
  let s := set_dark_mode (toggle r) s in
  match view s with
  | welcome_page => if get_started_pressed r then get_started s else s
  | main_app =>
      if reaches_logout r && confirm_logout_pressed r
      then confirm_logout s else s
  | nothing => s
  end.

Definition with_session (f : Session -> Session) (w : World) : World :=
  {| session_state := f (session_state w);
     feedback_json := feedback_json w;
     screen := screen w |}.

(** What one interaction can do to the world: a run of the script top and
    navigation, and, inside the main app, the predict button with whatever
    model is loaded and the feedback form. *)
Inductive step : World -> World -> Prop :=
| step_navigate (r : Run) (w : World) :
    step w (with_session (navigate r) w)
| step_predict (price : Type)
    (predict : DataFrame -> Result PyExn price)
    (format_price : price -> Result PyExn str)
    (raw : RawInput) (X : DataFrame) (pressed : bool) (w : World) :
    view (session_state w) = main_app ->
    step w (snd (predict_price price predict format_price raw X pressed w))
| step_feedback (name : str) (rating : Z) (feedback : str)
    (submitted : bool) (now : str) (w : World) :
    view (session_state w) = main_app ->
    step w (snd (feedback_form name rating feedback submitted now w)).

Inductive steps : World -> World -> Prop :=
| steps_none (w : World) : steps w w
| steps_more (w w' w'' : World) : steps w w' -> step w' w'' -> steps w w''.

End Pages.

(** * Properties *)

(** ** Strings *)

Lemma str_eqb_eq (a b : str) : str_eqb a b = true <-> a = b.
Proof.
  revert b; induction a as [|x a IH]; intros [|y b]; simpl;
    try (split; [discriminate | discriminate]); [tauto|].
  rewrite andb_true_iff, N.eqb_eq, IH.
  split; [intros [-> ->]; reflexivity | intros H; injection H; auto].
Qed.

Lemma str_eqb_refl (a : str) : str_eqb a a = true.
Proof. apply str_eqb_eq; reflexivity. Qed.

Lemma str_eqb_neq (a b : str) : str_eqb a b = false <-> a <> b.
Proof.
  rewrite <- str_eqb_eq. destruct (str_eqb a b); split; congruence.
Qed.

(** ** Data frames *)

Module FrameFacts.
Import Frame.

Lemma contains_In (cols : list str) (c : str) :
  contains cols c = true <-> In c cols.
Proof.
  unfold contains. rewrite existsb_exists. split.
  - intros [x [Hx He]]. apply str_eqb_eq in He. subst; assumption.
  - intros H. exists c. split; [assumption | apply str_eqb_refl].
Qed.

Lemma contains_not_In (cols : list str) (c : str) :
  contains cols c = false <-> ~ In c cols.
Proof.
  rewrite <- contains_In. destruct (contains cols c); split; congruence.
Qed.

Lemma columns_app (X Y : DataFrame) : columns (X ++ Y) = columns X ++ columns Y.
Proof. apply map_app. Qed.

Lemma In_columns (X : DataFrame) (c : str) (v : Z) :
  In (c, v) X -> In c (columns X).
Proof. intros H. apply (in_map fst) in H. exact H. Qed.

(** A new column goes last. *)
Lemma setitem_new (X : DataFrame) (c : str) (v : Z) :
  ~ In c (columns X) -> setitem X c v = X ++ [(c, v)].
Proof.
  intros H. unfold setitem. apply contains_not_In in H. rewrite H. reflexivity.
Qed.

(** With distinct labels, a label names one column. *)
Lemma labelled_unique (X : DataFrame) (c : str) :
  NoDup (columns X) -> In c (columns X) ->
  exists v, labelled X c = [(c, v)].
Proof.
  induction X as [|[k x] X IH]; simpl; intros Hnd Hin; [contradiction|].
  inversion Hnd as [|? ? Hk Hnd']; subst.
  destruct (str_eqb k c) eqn:E.
  - apply str_eqb_eq in E; subst k. exists x. f_equal.
    assert (Hnone : forall Y, ~ In c (columns Y) -> labelled Y c = []).
    { clear. induction Y as [|[k y] Y IHY]; simpl; intros Hn; [reflexivity|].
      destruct (str_eqb k c) eqn:E.
      - apply str_eqb_eq in E. subst. tauto.
      - apply IHY. tauto. }
    apply Hnone; assumption.
  - apply str_eqb_neq in E. destruct Hin as [Hin|Hin]; [contradiction|].
    apply IH; assumption.
Qed.

Lemma labelled_In (X : DataFrame) (c : str) (kv : str * Z) :
  In kv (labelled X c) <-> In kv X /\ fst kv = c.
Proof.
  unfold labelled. rewrite filter_In, str_eqb_eq. reflexivity.
Qed.

(** Selecting names that all label a column does not raise. *)
Lemma select_present (X : DataFrame) (names : list str) :
  (forall c, In c names -> In c (columns X)) ->
  select X names = Ok (flat_map (labelled X) names).
Proof.
  intros Hall. unfold select.
  assert (Hnone : filter (fun c => negb (contains (columns X) c)) names = []).
  { induction names as [|c names IH]; simpl; [reflexivity|].
    assert (Hc : contains (columns X) c = true)
      by (apply contains_In, Hall; left; reflexivity).
    rewrite Hc; simpl. apply IH. intros c' Hc'. apply Hall. right; assumption. }
  rewrite Hnone. reflexivity.
Qed.

Lemma select_columns (X : DataFrame) (names : list str) :
  NoDup (columns X) ->
  (forall c, In c names -> In c (columns X)) ->
  columns (flat_map (labelled X) names) = names.
Proof.
  intros Hnd. induction names as [|c names IH]; intros Hall; simpl; [reflexivity|].
  rewrite columns_app.
  destruct (labelled_unique X c Hnd) as [v Hv]; [apply Hall; left; reflexivity|].
  rewrite Hv; simpl. f_equal. apply IH. intros c' Hc'. apply Hall. right; assumption.
Qed.

Lemma select_In (X : DataFrame) (names : list str) (kv : str * Z) :
  In kv (flat_map (labelled X) names) <-> In kv X /\ In (fst kv) names.
Proof.
  rewrite in_flat_map. split.
  - intros [c [Hc Hkv]]. apply labelled_In in Hkv. destruct Hkv as [H1 H2].
    subst c. tauto.
  - intros [H1 H2]. exists (fst kv). split; [assumption|].
    apply labelled_In. tauto.
Qed.

End FrameFacts.

(** ** The aligner *)

Module AlignerFacts.
Import Frame FrameFacts Aligner.

Lemma len_base_vals (raw : RawInput) : Dict.len (base_vals raw) = 11.
Proof. reflexivity. Qed.

Lemma wants_label_iff (schema : ModelSchema) (raw : RawInput) :
  wants_label schema raw = true <-> expected_features schema = Some 12.
Proof.
  unfold wants_label. rewrite len_base_vals.
  destruct (expected_features schema) as [n|]; [|split; discriminate].
  rewrite andb_true_iff, negb_true_iff, Z.eqb_neq, Z.eqb_eq.
  split; [intros [_ ->]; reflexivity | intros H; injection H; lia].
Qed.

Lemma label_frame_eq (raw : RawInput) :
  label_frame raw =
  Ok (base_vals raw ++
      [(py "furnishingstatus",
        match furnishingstatus raw with
        | Furnished => 0 | SemiFurnished => 1 | Unfurnished => 2
        end)]).
Proof. unfold label_frame. destruct (furnishingstatus raw); reflexivity. Qed.

Lemma onehot_frame_eq (raw : RawInput) :
  onehot_frame raw =
  base_vals raw ++
  [(py "furnishingstatus_furnished",
    match furnishingstatus raw with Furnished => 1 | _ => 0 end);
   (py "furnishingstatus_semi-furnished",
    match furnishingstatus raw with SemiFurnished => 1 | _ => 0 end)].
Proof. unfold onehot_frame. destruct (furnishingstatus raw); reflexivity. Qed.

Lemma str_eq_dec (a b : str) : {a = b} + {a <> b}.
Proof. apply list_eq_dec, N.eq_dec. Defined.

Lemma NoDup_by_nodup (l : list str) : nodup str_eq_dec l = l -> NoDup l.
Proof. intros <-. apply NoDup_nodup. Qed.

(** Encoding never raises and yields distinct column labels. *)
Lemma encode_ok (schema : ModelSchema) (raw : RawInput) :
  exists X, encode schema raw = Ok X /\ NoDup (columns X).
Proof.
  unfold encode. destruct (wants_label schema raw).
  - rewrite label_frame_eq. eexists; split; [reflexivity|].
    apply NoDup_by_nodup. vm_compute. reflexivity.
  - rewrite onehot_frame_eq. eexists; split; [reflexivity|].
    apply NoDup_by_nodup. vm_compute. reflexivity.
Qed.

(** The loop over [feature_names_in] only adds columns, at the end, with
    value 0, one for each name that labels no column yet. *)
Lemma add_missing_spec (names : list str) (X : DataFrame) :
  exists extra,
    add_missing X names = X ++ extra /\
    (forall kv, In kv extra ->
       snd kv = 0 /\ In (fst kv) names /\ ~ In (fst kv) (columns X)) /\
    (NoDup (columns X) -> NoDup (columns (X ++ extra))) /\
    (forall c, In c names -> In c (columns (X ++ extra))).
Proof.
  revert X. induction names as [|c names IH]; intros X.
  - exists []. rewrite app_nil_r. simpl. repeat split; tauto.
  - unfold add_missing; simpl. fold (add_missing
      (if negb (contains (columns X) c) then setitem X c 0 else X) names).
    destruct (contains (columns X) c) eqn:Hc; simpl.
    + destruct (IH X) as [extra [Heq [Hex [Hnd Hin]]]]. exists extra.
      split; [assumption|]. split; [|split; [assumption|]].
      * intros kv Hkv. destruct (Hex kv Hkv) as [? [? ?]]. tauto.
      * intros c' [<-|Hc'].
        -- rewrite columns_app. apply in_or_app. left.
           apply contains_In; assumption.
        -- apply Hin; assumption.
    + apply contains_not_In in Hc. rewrite (setitem_new X c 0 Hc).
      destruct (IH (X ++ [(c, 0)])) as [extra [Heq [Hex [Hnd Hin]]]].
      exists ((c, 0) :: extra). rewrite Heq, <- app_assoc. simpl.
      split; [reflexivity|]. split; [|split].
      * intros kv [<-|Hkv]; simpl; [tauto|].
        destruct (Hex kv Hkv) as [H0 [Hn Hnot]]. split; [assumption|].
        split; [tauto|]. intros Habs. apply Hnot.
        rewrite columns_app. apply in_or_app. left; assumption.
      * intros HX. change ((c, 0) :: extra) with ([(c, 0)] ++ extra).
        rewrite app_assoc. apply Hnd. rewrite columns_app. simpl.
        apply NoDup_app; [assumption| repeat constructor; simpl; tauto | ].
        intros x Hx [<-|[]]. contradiction.
      * intros c' Hc'. change ((c, 0) :: extra) with ([(c, 0)] ++ extra).
        rewrite app_assoc. destruct Hc' as [<-|Hc'].
        -- rewrite columns_app. apply in_or_app. left.
           rewrite columns_app. apply in_or_app. right. simpl; tauto.
        -- apply Hin; assumption.
Qed.

(** The aligner always returns a frame. *)
Lemma build_features_df_ok (schema : ModelSchema) (raw : RawInput) :
  exists row, build_features_df schema raw = Ok row.
Proof.
  unfold build_features_df.
  destruct (encode_ok schema raw) as [X [HX Hnd]]. rewrite HX; simpl.
  unfold align. destruct (feature_names_in schema) as [names|].
  - destruct (add_missing_spec names X) as [extra [Heq [_ [_ Hin]]]].
    rewrite select_present; [eexists; reflexivity|].
    rewrite Heq. exact Hin.
  - eexists; reflexivity.
Qed.

(** C1: label encoding (the 11 base columns and one [furnishingstatus]
    column) is chosen exactly when the model declares 12 input columns; with
    any other declaration, 13 included, or none, the one-hot columns are
    produced. *)
Theorem label_encoding_iff_twelve (schema : ModelSchema) (raw : RawInput) :
  let base :=
    [py "area"; py "bedrooms"; py "bathrooms"; py "stories"; py "mainroad";
     py "guestroom"; py "basement"; py "hotwaterheating";
     py "airconditioning"; py "parking"; py "prefarea"] in
  exists X,
    encode schema raw = Ok X /\
    build_features_df schema raw = align schema X /\
    columns (base_vals raw) = base /\
    Dict.len (base_vals raw) + 1 = 12 /\
    (columns X = base ++ [py "furnishingstatus"]
     <-> expected_features schema = Some 12) /\
    (columns X = base ++ [py "furnishingstatus_furnished";
                          py "furnishingstatus_semi-furnished"]
     <-> expected_features schema <> Some 12) /\
    (expected_features schema = Some 13 \/ expected_features schema = None ->
     X = onehot_frame raw).
Proof.
  intros base. unfold build_features_df, encode.
  pose proof (wants_label_iff schema raw) as Hw.
  destruct (wants_label schema raw).
  - assert (H12 : expected_features schema = Some 12) by (apply Hw; reflexivity).
    rewrite label_frame_eq. eexists. split; [reflexivity|].
    split; [reflexivity|]. split; [reflexivity|]. split; [reflexivity|].
    match goal with |- (columns ?F = _ <-> _) /\ _ =>
      assert (Hc : columns F = base ++ [py "furnishingstatus"]) by reflexivity
    end.
    rewrite Hc. split; [tauto|]. split.
    + split; [|congruence]. intros H. apply app_inv_head in H. discriminate.
    + rewrite H12. intros [H|H]; discriminate.
  - assert (H12 : expected_features schema <> Some 12).
    { intros H. apply Hw in H. discriminate. }
    rewrite onehot_frame_eq. eexists. split; [reflexivity|].
    rewrite <- onehot_frame_eq.
    split; [reflexivity|]. split; [reflexivity|]. split; [reflexivity|].
    assert (Hc : columns (onehot_frame raw) =
                 base ++ [py "furnishingstatus_furnished";
                          py "furnishingstatus_semi-furnished"])
      by (rewrite onehot_frame_eq; reflexivity).
    rewrite Hc. split; [|split; [tauto|reflexivity]].
    split; [|tauto]. intros H. apply app_inv_head in H. discriminate.
Qed.

(** C2: when the model declares its column names, the aligned row has
    exactly these columns in this order; a declared name that labels no
    encoded column is in the row with value 0, an encoded column that is
    declared keeps its value, and one that is not declared is dropped. *)
Theorem aligned_columns_are_expected_names
    (schema : ModelSchema) (raw : RawInput) (names : list str)
    (Hnames : feature_names_in schema = Some names) :
  exists X_local row,
    encode schema raw = Ok X_local /\
    build_features_df schema raw = Ok row /\
    columns row = names /\
    (forall c, In c names -> ~ In c (columns X_local) ->
       In (c, 0) row /\ forall v, In (c, v) row -> v = 0) /\
    (forall c v, In c names -> In (c, v) X_local ->
       In (c, v) row /\ forall v', In (c, v') row -> v' = v) /\
    (forall c, In c (columns X_local) -> ~ In c names ->
       ~ In c (columns row)).
Proof.
  destruct (encode_ok schema raw) as [X [HX Hnd]].
  destruct (add_missing_spec names X) as [extra [Heq [Hex [Hnd' Hin]]]].
  specialize (Hnd' Hnd).
  exists X, (flat_map (labelled (X ++ extra)) names).
  split; [assumption|]. split.
  { unfold build_features_df. rewrite HX; simpl. unfold align.
    rewrite Hnames, Heq. apply select_present; assumption. }
  assert (Hcols : columns (flat_map (labelled (X ++ extra)) names) = names)
    by (apply select_columns; assumption).
  assert (Hsingle : forall c v v',
            In (c, v) (X ++ extra) -> In (c, v') (X ++ extra) -> v' = v).
  { intros c v v' H1 H2.
    destruct (labelled_unique (X ++ extra) c Hnd') as [u Hu];
      [apply (In_columns _ _ v); assumption|].
    assert (A1 : In (c, v) (labelled (X ++ extra) c))
      by (apply labelled_In; simpl; tauto).
    assert (A2 : In (c, v') (labelled (X ++ extra) c))
      by (apply labelled_In; simpl; tauto).
    rewrite Hu in A1, A2. simpl in A1, A2.
    destruct A1 as [A1|[]], A2 as [A2|[]]. congruence. }
  split; [assumption|]. split; [|split].
  - intros c Hc Hnot.
    assert (Hzero : In (c, 0) (X ++ extra)).
    { specialize (Hin c Hc). rewrite columns_app in Hin.
      apply in_app_or in Hin. destruct Hin as [Hin|Hin]; [contradiction|].
      apply in_map_iff in Hin. destruct Hin as [[k v] [Hk Hkv]].
      simpl in Hk; subst k. destruct (Hex _ Hkv) as [H0 _]. simpl in H0.
      subst v. apply in_or_app. right; assumption. }
    split.
    + apply select_In. simpl. tauto.
    + intros v Hv. apply select_In in Hv. destruct Hv as [Hv _].
      apply (Hsingle c 0 v); assumption.
  - intros c v Hc HcX.
    assert (Hv : In (c, v) (X ++ extra)) by (apply in_or_app; left; assumption).
    split.
    + apply select_In. simpl. tauto.
    + intros v' Hv'. apply select_In in Hv'. destruct Hv' as [Hv' _].
      apply (Hsingle c v v'); assumption.
  - intros c _ Hnot. rewrite Hcols. assumption.
Qed.

Lemma aligned_columns_witness :
  build_features_df
    {| expected_features := Some 3;
       feature_names_in := Some [py "parking"; py "garden"; py "area"] |}
    default_input
  = Ok [(py "parking", 1); (py "garden", 0); (py "area", 1500)]
  /\ exists X_local row,
      encode {| expected_features := Some 3;
                feature_names_in := Some [py "parking"; py "garden"; py "area"] |}
             default_input = Ok X_local /\
      build_features_df
        {| expected_features := Some 3;
           feature_names_in := Some [py "parking"; py "garden"; py "area"] |}
        default_input = Ok row /\
      columns row = [py "parking"; py "garden"; py "area"] /\
      (forall c, In c [py "parking"; py "garden"; py "area"] ->
         ~ In c (columns X_local) ->
         In (c, 0) row /\ forall v, In (c, v) row -> v = 0) /\
      (forall c v, In c [py "parking"; py "garden"; py "area"] ->
         In (c, v) X_local ->
         In (c, v) row /\ forall v', In (c, v') row -> v' = v) /\
      (forall c, In c (columns X_local) ->
         ~ In c [py "parking"; py "garden"; py "area"] ->
         ~ In c (columns row)).
Proof.
  split; [vm_compute; reflexivity|].
  apply (aligned_columns_are_expected_names
           {| expected_features := Some 3;
              feature_names_in := Some [py "parking"; py "garden"; py "area"] |}
           default_input [py "parking"; py "garden"; py "area"]).
  reflexivity.
Defined.

(** C3: a yes/no field becomes 1 for Yes and 0 for No; in label mode
    [furnishingstatus] is 0, 1, 2 for Furnished, Semi-Furnished, Unfurnished;
    in one-hot mode each of the two indicator columns is 1 exactly for its
    own category, so both are 0 for Unfurnished. *)
Theorem value_conversion (schema : ModelSchema) (raw : RawInput) :
  let bit := fun v : YesNo => match v with Yes => 1 | No => 0 end in
  let base :=
    [ (py "area", area raw); (py "bedrooms", bedrooms raw);
      (py "bathrooms", bathrooms raw); (py "stories", stories raw);
      (py "mainroad", bit (mainroad raw));
      (py "guestroom", bit (guestroom raw));
      (py "basement", bit (basement raw));
      (py "hotwaterheating", bit (hotwaterheating raw));
      (py "airconditioning", bit (airconditioning raw));
      (py "parking", parking raw);
      (py "prefarea", bit (prefarea raw)) ] in
  (forall v, yn (yesno_value v) = bit v) /\
  base_vals raw = base /\
  (expected_features schema = Some 12 ->
   encode schema raw =
   Ok (base ++
       [(py "furnishingstatus",
         match furnishingstatus raw with
         | Furnished => 0 | SemiFurnished => 1 | Unfurnished => 2
         end)])) /\
  (expected_features schema <> Some 12 ->
   encode schema raw =
   Ok (base ++
       [(py "furnishingstatus_furnished",
         match furnishingstatus raw with
         | Furnished => 1 | SemiFurnished => 0 | Unfurnished => 0
         end);
        (py "furnishingstatus_semi-furnished",
         match furnishingstatus raw with
         | Furnished => 0 | SemiFurnished => 1 | Unfurnished => 0
         end)])) /\
  (feature_names_in schema = None ->
   build_features_df schema raw = encode schema raw).
Proof.
  intros bit base.
  assert (Hyn : forall v, yn (yesno_value v) = bit v)
    by (intros []; reflexivity).
  assert (Hbase : base_vals raw = base).
  { unfold base_vals, base. rewrite !Hyn. reflexivity. }
  split; [assumption|]. split; [assumption|].
  pose proof (wants_label_iff schema raw) as Hw. unfold encode.
  split; [|split].
  - intros H12. apply Hw in H12. rewrite H12, label_frame_eq, Hbase.
    reflexivity.
  - intros H12. destruct (wants_label schema raw).
    + exfalso. apply H12, Hw. reflexivity.
    + rewrite onehot_frame_eq, Hbase.
      destruct (furnishingstatus raw); reflexivity.
  - intros Hnone. unfold build_features_df, align. rewrite Hnone.
    fold (encode schema raw). destruct (encode schema raw); reflexivity.
Qed.

(** C8: aligning the same input against the same schema twice gives the
    same row both times: same columns, same order, same values. *)
Theorem aligner_deterministic
    (schema schema' : ModelSchema) (raw raw' : RawInput)
    (Hschema : schema' = schema) (Hraw : raw' = raw) :
  exists row,
    build_features_df schema raw = Ok row /\
    build_features_df schema' raw' = Ok row.
Proof.
  subst. destruct (build_features_df_ok schema raw) as [row Hrow].
  exists row. split; assumption.
Qed.

Lemma aligner_deterministic_witness :
  exists row,
    build_features_df
      {| expected_features := Some 12; feature_names_in := None |}
      default_input = Ok row /\
    build_features_df
      {| expected_features := Some (11 + 1); feature_names_in := None |}
      default_input = Ok row.
Proof.
  apply (aligner_deterministic
           {| expected_features := Some 12; feature_names_in := None |}
           {| expected_features := Some (11 + 1); feature_names_in := None |}
           default_input default_input); reflexivity.
Defined.

(** C9: two inputs that agree on every field but [location] are aligned
    to the same row. *)
Theorem location_not_in_features
    (schema : ModelSchema) (r1 r2 : RawInput)
    (Harea : area r1 = area r2)
    (Hbedrooms : bedrooms r1 = bedrooms r2)
    (Hbathrooms : bathrooms r1 = bathrooms r2)
    (Hstories : stories r1 = stories r2)
    (Hparking : parking r1 = parking r2)
    (Hmainroad : mainroad r1 = mainroad r2)
    (Hguestroom : guestroom r1 = guestroom r2)
    (Hbasement : basement r1 = basement r2)
    (Hhotwater : hotwaterheating r1 = hotwaterheating r2)
    (Haircon : airconditioning r1 = airconditioning r2)
    (Hprefarea : prefarea r1 = prefarea r2)
    (Hfurnishing : furnishingstatus r1 = furnishingstatus r2) :
  exists row,
    build_features_df schema r1 = Ok row /\
    build_features_df schema r2 = Ok row.
Proof.
  destruct (build_features_df_ok schema r1) as [row Hrow].
  exists row. split; [assumption|]. rewrite <- Hrow.
  assert (Hb : base_vals r2 = base_vals r1).
  { unfold base_vals. congruence. }
  unfold build_features_df, encode, wants_label, label_frame, onehot_frame.
  rewrite Hb, Hfurnishing. reflexivity.
Qed.

Lemma location_not_in_features_witness :
  exists row,
    build_features_df
      {| expected_features := Some 13; feature_names_in := None |}
      default_input = Ok row /\
    build_features_df
      {| expected_features := Some 13; feature_names_in := None |}
      {| area := 1500; bedrooms := 3; bathrooms := 2; stories := 2;
         parking := 1; mainroad := Yes; guestroom := Yes; basement := Yes;
         hotwaterheating := Yes; airconditioning := Yes; prefarea := Yes;
         furnishingstatus := Furnished; location := py "Karachi" |} = Ok row.
Proof.
  apply (location_not_in_features
           {| expected_features := Some 13; feature_names_in := None |}
           default_input
           {| area := 1500; bedrooms := 3; bathrooms := 2; stories := 2;
              parking := 1; mainroad := Yes; guestroom := Yes; basement := Yes;
              hotwaterheating := Yes; airconditioning := Yes; prefarea := Yes;
              furnishingstatus := Furnished; location := py "Karachi" |});
    reflexivity.
Defined.

(** C10: on the one-hot path the row, before any reordering, has the 11
    base columns followed by the two indicator columns, 13 distinct columns
    in all; each indicator is 0 or 1 and they are never both 1. *)
Theorem onehot_row_invariant
    (schema : ModelSchema) (raw : RawInput)
    (Hmode : expected_features schema <> Some 12) :
  exists furnished semi,
    encode schema raw =
    Ok (base_vals raw ++
        [(py "furnishingstatus_furnished", furnished);
         (py "furnishingstatus_semi-furnished", semi)]) /\
    List.length (onehot_frame raw) = 13%nat /\
    columns (onehot_frame raw) =
    [py "area"; py "bedrooms"; py "bathrooms"; py "stories"; py "mainroad";
     py "guestroom"; py "basement"; py "hotwaterheating";
     py "airconditioning"; py "parking"; py "prefarea";
     py "furnishingstatus_furnished"; py "furnishingstatus_semi-furnished"] /\
    NoDup (columns (onehot_frame raw)) /\
    encode schema raw = Ok (onehot_frame raw) /\
    (furnished = 0 \/ furnished = 1) /\
    (semi = 0 \/ semi = 1) /\
    ~ (furnished = 1 /\ semi = 1).
Proof.
  assert (Henc : encode schema raw = Ok (onehot_frame raw)).
  { unfold encode. destruct (wants_label schema raw) eqn:E; [|reflexivity].
    apply wants_label_iff in E. contradiction. }
  rewrite Henc, onehot_frame_eq.
  eexists; eexists. split; [reflexivity|].
  split; [reflexivity|]. split; [reflexivity|].
  split; [apply NoDup_by_nodup; vm_compute; reflexivity|].
  split; [reflexivity|].
  destruct (furnishingstatus raw); repeat split; auto; intros [? ?]; discriminate.
Qed.

Lemma onehot_row_invariant_witness :
  exists furnished semi,
    encode {| expected_features := Some 13; feature_names_in := None |}
           default_input =
    Ok (base_vals default_input ++
        [(py "furnishingstatus_furnished", furnished);
         (py "furnishingstatus_semi-furnished", semi)]) /\
    List.length (onehot_frame default_input) = 13%nat /\
    columns (onehot_frame default_input) =
    [py "area"; py "bedrooms"; py "bathrooms"; py "stories"; py "mainroad";
     py "guestroom"; py "basement"; py "hotwaterheating";
     py "airconditioning"; py "parking"; py "prefarea";
     py "furnishingstatus_furnished"; py "furnishingstatus_semi-furnished"] /\
    NoDup (columns (onehot_frame default_input)) /\
    encode {| expected_features := Some 13; feature_names_in := None |}
           default_input = Ok (onehot_frame default_input) /\
    (furnished = 0 \/ furnished = 1) /\
    (semi = 0 \/ semi = 1) /\
    ~ (furnished = 1 /\ semi = 1).
Proof.
  apply (onehot_row_invariant
           {| expected_features := Some 13; feature_names_in := None |}
           default_input).
  simpl. discriminate.
Defined.

End AlignerFacts.

(** ** Stripping *)

Module StripFacts.

Lemma lstrip_nil_iff (s : str) : lstrip s = [] <-> forallb isspace s = true.
Proof.
  induction s as [|c s IH]; simpl; [tauto|].
  destruct (isspace c); simpl; [exact IH|].
  split; discriminate.
Qed.

Lemma forallb_lstrip (s : str) : forallb isspace (lstrip s) = forallb isspace s.
Proof.
  induction s as [|c s IH]; simpl; [reflexivity|].
  destruct (isspace c) eqn:E; simpl; [exact IH|].
  rewrite E. reflexivity.
Qed.

Lemma forallb_rev (s : str) : forallb isspace (rev s) = forallb isspace s.
Proof.
  apply eq_true_iff_eq. rewrite !forallb_forall.
  split; intros H x Hx; apply H; [apply in_rev in Hx | apply in_rev]; assumption.
Qed.

(** [s.strip()] is empty exactly when [s] is empty or all whitespace. *)
Lemma strip_nil_iff (s : str) : strip s = [] <-> forallb isspace s = true.
Proof.
  unfold strip, rstrip. rewrite <- forallb_lstrip, <- forallb_rev.
  rewrite <- lstrip_nil_iff. split.
  - intros H. apply (f_equal (@rev char)) in H. rewrite rev_involutive in H.
    exact H.
  - intros ->. reflexivity.
Qed.

Lemma truthy_strip (s : str) :
  truthy (strip s) = negb (forallb isspace s).
Proof.
  destruct (forallb isspace s) eqn:E.
  - apply strip_nil_iff in E. rewrite E. reflexivity.
  - destruct (strip s) eqn:S; [|reflexivity].
    apply strip_nil_iff in S. congruence.
Qed.

End StripFacts.

(** ** Feedback board and predict button *)

Module AppFacts.
Import Frame Aligner App StripFacts.

Lemma load_feedback_run (w : World) :
  load_feedback w =
  (match feedback_json w with
   | Present (Dumped x) => Ok x
   | Unopenable e => Raise e
   | _ => Ok (JList [])
   end, w).
Proof.
  unfold load_feedback, bind, path_exists, open_read, try_except, json_load,
    ret, lift.
  destruct (feedback_json w) as [|[x|e]|e'] eqn:E; cbv beta iota;
    rewrite ?E; reflexivity.
Qed.

Lemma load_feedback_value (w : World) (v : json) :
  fst (load_feedback w) = Ok v -> load_feedback w = (Ok v, w).
Proof.
  rewrite load_feedback_run. cbn [fst]. intros ->. reflexivity.
Qed.



(** C4: a submission whose text is not empty after stripping leaves the
    store holding the records it held, in the same order, followed by one
    new record with the submitted rating and text and with the submitted
    name, or "Anonymous" when no name was given. From an empty store,
    rating 5, text "Great" and no name leave exactly one record, with
    rating 5 and name "Anonymous". *)
Theorem feedback_submission_appends
    (w : World) (name : str) (rating : Z) (feedback now : str)
    (prior : list json)
    (Htext : strip feedback <> [])
    (Hprior : fst (load_feedback w) = Ok (JList prior)) :
  let record :=
    JObj [ (py "name", JStr (match name with [] => py "Anonymous" | _ => name end));
           (py "rating", JInt rating);
           (py "feedback", JStr feedback);
           (py "date", JStr now) ] in
  let w' := snd (feedback_form name rating feedback true now w) in
  fst (feedback_form name rating feedback true now w) = Ok tt /\
  feedback_json w' = Present (Dumped (JList (prior ++ [record]))) /\
  fst (load_feedback w') = Ok (JList (prior ++ [record])) /\
  screen w' = screen w ++ [success thanks] /\
  history (session_state w') = history (session_state w) /\
  (forall (w0 : World) (stamp : str),
     feedback_json w0 = Missing \/ feedback_json w0 = Present (Dumped (JList [])) ->
     feedback_json (snd (feedback_form [] 5 (py "Great") true stamp w0)) =
     Present (Dumped (JList
       [JObj [ (py "name", JStr (py "Anonymous")); (py "rating", JInt 5);
               (py "feedback", JStr (py "Great")); (py "date", JStr stamp) ]]))).
Proof.
  intros record w'.
  assert (Hrun : forall nm rt fb st w1 items,
            truthy (strip fb) = true ->
            fst (load_feedback w1) = Ok (JList items) ->
            feedback_form nm rt fb true st w1 =
            (Ok tt,
             {| session_state :=
                  {| logged_in := logged_in (session_state w1);
                     page := page (session_state w1);
                     history := history (session_state w1);
                     dark_mode := dark_mode (session_state w1);
                     feedback_submitted := true |};
                feedback_json :=
                  Present (Dumped (JList (items ++ [new_feedback nm rt fb st])));
                screen := screen w1 ++ [success thanks] |})).
  { intros nm rt fb st w1 items Ht Hl. unfold feedback_form. rewrite Ht.
    unfold bind at 1. rewrite (load_feedback_value w1 _ Hl). reflexivity. }
  assert (Ht : truthy (strip feedback) = true)
    by (destruct (strip feedback); [congruence | reflexivity]).
  assert (Hrec : new_feedback name rating feedback now = record)
    by (unfold new_feedback, record; destruct name; reflexivity).
  subst w'. rewrite (Hrun _ _ _ _ _ _ Ht Hprior), Hrec.
  cbn [fst snd feedback_json screen session_state history].
  split; [reflexivity|]. split; [reflexivity|].
  split; [rewrite load_feedback_run; reflexivity|].
  split; [reflexivity|]. split; [reflexivity|].
  intros w0 stamp Hempty.
  rewrite (Hrun [] 5 (py "Great") stamp w0 []); [reflexivity | reflexivity |].
  rewrite load_feedback_run. destruct Hempty as [-> | ->]; reflexivity.
Qed.

Lemma feedback_submission_witness :
  feedback_json
    (snd (feedback_form [] 5 (py "Great") true (py "2025-09-01 10:15:00")
            {| session_state := initial_session; feedback_json := Missing;
               screen := [] |}))
  = Present (Dumped (JList
      [JObj [ (py "name", JStr (py "Anonymous")); (py "rating", JInt 5);
              (py "feedback", JStr (py "Great"));
              (py "date", JStr (py "2025-09-01 10:15:00")) ]])).
Proof.
  refine (proj1 (proj2
    (feedback_submission_appends
       {| session_state := initial_session; feedback_json := Missing;
          screen := [] |}
       [] 5 (py "Great") (py "2025-09-01 10:15:00") [] _ _))).
  - vm_compute. discriminate.
  - reflexivity.
Defined.

(** A file that holds JSON other than a list is not a feedback store: the
    form then raises at [append], before anything is written. *)
Lemma feedback_form_not_a_list
    (w : World) (name : str) (rating : Z) (feedback now : str) (v : json)
    (Htext : strip feedback <> [])
    (Hfile : feedback_json w = Present (Dumped v))
    (Hv : forall items, v <> JList items) :
  exists e, feedback_form name rating feedback true now w = (Raise e, w).
Proof.
  unfold feedback_form.
  destruct (strip feedback) eqn:S; [congruence|]. cbn [truthy].
  unfold bind at 1. rewrite load_feedback_run, Hfile. unfold bind, lift.
  destruct v; try (eexists; reflexivity).
  exfalso. eapply Hv. reflexivity.
Qed.

(** C5: a submission whose text is empty or all whitespace shows the
    warning and nothing else happens: the file and the session state are
    what they were, and loading the feedback gives what it gave before. *)
Theorem blank_feedback_rejected
    (w : World) (name : str) (rating : Z) (feedback now : str)
    (Hblank : forallb isspace feedback = true) :
  strip feedback = [] /\
  feedback_form name rating feedback true now w =
  (Ok tt, {| session_state := session_state w;
             feedback_json := feedback_json w;
             screen := screen w ++ [warning please] |}) /\
  fst (load_feedback (snd (feedback_form name rating feedback true now w)))
  = fst (load_feedback w).
Proof.
  assert (Hs : strip feedback = []) by (apply strip_nil_iff; assumption).
  assert (Hrun : feedback_form name rating feedback true now w =
                 (Ok tt, {| session_state := session_state w;
                            feedback_json := feedback_json w;
                            screen := screen w ++ [warning please] |})).
  { unfold feedback_form. rewrite Hs. reflexivity. }
  split; [assumption|]. split; [assumption|].
  rewrite Hrun, !load_feedback_run. reflexivity.
Qed.

Lemma blank_feedback_witness :
  feedback_form (py "Sidra") 4 [32; 9; 10; 160; 12288]%N true
    (py "2025-09-01 10:15:00")
    {| session_state := initial_session;
       feedback_json := Present (Dumped (JList [JStr (py "kept")]));
       screen := [] |}
  = (Ok tt,
     {| session_state := initial_session;
        feedback_json := Present (Dumped (JList [JStr (py "kept")]));
        screen := [warning please] |}).
Proof.
  refine (proj1 (proj2
    (blank_feedback_rejected
       {| session_state := initial_session;
          feedback_json := Present (Dumped (JList [JStr (py "kept")]));
          screen := [] |}
       (py "Sidra") 4 [32; 9; 10; 160; 12288]%N (py "2025-09-01 10:15:00") _))).
  vm_compute. reflexivity.
Defined.

(** C7: when the model's predict call raises, the session state, its
    history included, and the feedback file are what they were; an
    exception deriving from [Exception] is shown as an error notice and the
    handler returns, any other goes on to the caller. Whatever the model
    does, the history either is unchanged or has gained one entry, the latter
    only when the button was pressed and the prediction and its formatting
    succeeded. *)
Theorem failed_prediction_keeps_history
    (price : Type)
    (predict : DataFrame -> Result PyExn price)
    (format_price : price -> Result PyExn str)
    (raw : RawInput) (X : DataFrame) (w : World) (e : PyExn)
    (Hfail : predict X = Raise e) :
  let run := predict_price price predict format_price raw in
  session_state (snd (run X true w)) = session_state w /\
  feedback_json (snd (run X true w)) = feedback_json w /\
  (is_Exception e = true ->
   run X true w =
   (Ok tt, {| session_state := session_state w;
              feedback_json := feedback_json w;
              screen := screen w ++
                        [error (alert ++ py "Prediction error: " ++ exn_text e)] |})) /\
  (is_Exception e = false -> run X true w = (Raise e, w)) /\
  (forall X' pressed w0,
     history (session_state (snd (run X' pressed w0)))
     = history (session_state w0)
     \/ exists p shown,
         pressed = true /\ predict X' = Ok p /\ format_price p = Ok shown /\
         fst (run X' pressed w0) = Ok tt /\
         history (session_state (snd (run X' pressed w0)))
         = history (session_state w0) ++
           [{| h_Location := match location raw with
                             | [] => py "Unknown" | _ => location raw end;
               h_Area := area raw; h_Bedrooms := bedrooms raw;
               h_Bathrooms := bathrooms raw; h_Stories := stories raw;
               h_Parking := parking raw;
               h_Predicted_Price := rupee ++ shown |}]).
Proof.
  intros run. subst run.
  assert (Hrun : predict_price price predict format_price raw X true w =
                 if is_Exception e
                 then (Ok tt,
                       {| session_state := session_state w;
                          feedback_json := feedback_json w;
                          screen := screen w ++
                            [error (alert ++ py "Prediction error: "
                                    ++ exn_text e)] |})
                 else (Raise e, w)).
  { unfold predict_price, try_except, bind, lift. rewrite Hfail.
    destruct (is_Exception e); reflexivity. }
  rewrite Hrun.
  split; [destruct (is_Exception e); reflexivity|].
  split; [destruct (is_Exception e); reflexivity|].
  split; [intros ->; reflexivity|].
  split; [intros ->; reflexivity|].
  intros X' pressed w0. unfold predict_price.
  destruct pressed; [|left; reflexivity].
  unfold try_except, bind, lift.
  destruct (predict X') as [p|e1] eqn:Hp.
  - destruct (format_price p) as [shown|e2] eqn:Hf.
    + right. exists p, shown. cbn. rewrite Hf. cbn.
      repeat split. unfold or_else. destruct (location raw); reflexivity.
    + left. destruct (is_Exception e2); reflexivity.
  - left. destruct (is_Exception e1); reflexivity.
Qed.

Lemma failed_prediction_witness :
  predict_price Z
    (fun _ => Raise {| exn_class := py "ValueError"; is_Exception := true;
                       exn_text := py "X has 13 features" |})
    (fun _ => Ok (py "0"))
    default_input (onehot_frame default_input) true
    {| session_state := initial_session; feedback_json := Missing;
       screen := [] |}
  = (Ok tt,
     {| session_state := initial_session; feedback_json := Missing;
        screen := [error (alert ++ py "Prediction error: "
                          ++ py "X has 13 features")] |}).
Proof.
  refine (proj1 (proj2 (proj2
    (failed_prediction_keeps_history Z
       (fun _ => Raise {| exn_class := py "ValueError"; is_Exception := true;
                          exn_text := py "X has 13 features" |})
       (fun _ => Ok (py "0"))
       default_input (onehot_frame default_input)
       {| session_state := initial_session; feedback_json := Missing;
          screen := [] |}
       {| exn_class := py "ValueError"; is_Exception := true;
          exn_text := py "X has 13 features" |}
       _))) _); reflexivity.
Defined.

End AppFacts.

(** ** More on the aligner *)

Module AlignerMore.
Import Frame FrameFacts Aligner AlignerFacts.

Lemma getitem_app_l (X E : DataFrame) (c : str) :
  In c (columns X) -> Dict.getitem (X ++ E) c = Dict.getitem X c.
Proof.
  induction X as [|[k x] X IH]; simpl; intros Hin; [contradiction|].
  destruct (str_eqb k c) eqn:Ek; [reflexivity|].
  apply str_eqb_neq in Ek. destruct Hin as [Hin|Hin]; [contradiction|].
  apply IH; assumption.
Qed.

Lemma getitem_app_r (X E : DataFrame) (c : str) :
  ~ In c (columns X) -> Dict.getitem (X ++ E) c = Dict.getitem E c.
Proof.
  induction X as [|[k x] X IH]; simpl; intros Hnot; [reflexivity|].
  destruct (str_eqb k c) eqn:Ek.
  - apply str_eqb_eq in Ek. tauto.
  - apply IH. tauto.
Qed.

Lemma getitem_absent (X : DataFrame) (c : str) :
  ~ In c (columns X) -> Dict.getitem X c = Raise (MkKeyError [c]).
Proof.
  intros H. rewrite <- (app_nil_r X). rewrite getitem_app_r by assumption.
  reflexivity.
Qed.

Lemma getitem_In (X : DataFrame) (c : str) (v : Z) :
  Dict.getitem X c = Ok v -> In (c, v) X.
Proof.
  induction X as [|[k x] X IH]; simpl; [discriminate|].
  destruct (str_eqb k c) eqn:Ek.
  - apply str_eqb_eq in Ek. intros H. injection H as ->. subst. tauto.
  - intros H. right. apply IH; assumption.
Qed.

(** With distinct labels, [getitem] finds the one column of that label. *)
Lemma getitem_labelled (X : DataFrame) (c : str) :
  NoDup (columns X) -> In c (columns X) ->
  exists v, Dict.getitem X c = Ok v /\ labelled X c = [(c, v)].
Proof.
  intros Hnd Hin. destruct (labelled_unique X c Hnd Hin) as [v Hv].
  exists v. split; [|assumption].
  destruct (Dict.getitem X c) as [u|e] eqn:Hg.
  - apply getitem_In in Hg.
    assert (Hu : In (c, u) (labelled X c)) by (apply labelled_In; simpl; tauto).
    rewrite Hv in Hu. destruct Hu as [Hu|[]]. congruence.
  - exfalso. clear Hv Hnd. induction X as [|[k x] X IH]; simpl in *; [tauto|].
    destruct (str_eqb k c) eqn:Ek; [discriminate|].
    apply str_eqb_neq in Ek. destruct Hin as [Hin|Hin]; [contradiction|].
    apply IH; assumption.
Qed.

Lemma getitem_of_member (X : DataFrame) (kv : str * Z) :
  NoDup (columns X) -> In kv X -> Dict.getitem X (fst kv) = Ok (snd kv).
Proof.
  intros Hnd Hin. destruct kv as [c v]. simpl.
  destruct (getitem_labelled X c Hnd (In_columns X c v Hin)) as [u [Hu Hl]].
  assert (Hv : In (c, v) (labelled X c)) by (apply labelled_In; simpl; tauto).
  rewrite Hl in Hv. destruct Hv as [Hv|[]]. congruence.
Qed.

(** The loop and the selection together: each name with the value of its
    column, or 0 when there is none. *)
Lemma align_names (X : DataFrame) (names : list str) :
  NoDup (columns X) ->
  select (add_missing X names) names =
  Ok (List.map
        (fun c => (c, match Dict.getitem X c with Ok v => v | Raise _ => 0 end))
        names).
Proof.
  intros Hnd.
  destruct (add_missing_spec names X) as [extra [Heq [Hex [Hnd' Hin]]]].
  specialize (Hnd' Hnd). rewrite Heq, select_present by assumption.
  f_equal.
  assert (Hsub : forall l, (forall c, In c l -> In c names) ->
            flat_map (labelled (X ++ extra)) l =
            List.map
              (fun c => (c, match Dict.getitem X c with
                            | Ok v => v | Raise _ => 0 end)) l).
  { induction l as [|c l IH]; intros Hl; simpl; [reflexivity|].
    rewrite IH by (intros c' Hc'; apply Hl; right; assumption).
    assert (Hc : In c (columns (X ++ extra)))
      by (apply Hin, Hl; left; reflexivity).
    destruct (getitem_labelled (X ++ extra) c Hnd' Hc) as [v [Hg Hlab]].
    rewrite Hlab. simpl. do 2 f_equal.
    destruct (in_dec str_eq_dec c (columns X)) as [HX|HX].
    - rewrite getitem_app_l in Hg by assumption. rewrite Hg. reflexivity.
    - rewrite getitem_absent by assumption.
      rewrite getitem_app_r in Hg by assumption.
      apply getitem_In in Hg. destruct (Hex _ Hg) as [H0 _]. exact H0. }
  apply Hsub. auto.
Qed.

Lemma build_with_names
    (schema : ModelSchema) (raw : RawInput) (names : list str) :
  feature_names_in schema = Some names ->
  exists X_local,
    encode schema raw = Ok X_local /\
    build_features_df schema raw =
    Ok (List.map
          (fun c => (c, match Dict.getitem X_local c with
                        | Ok v => v | Raise _ => 0 end))
          names).
Proof.
  intros Hnames. destruct (encode_ok schema raw) as [X [HX Hnd]].
  exists X. split; [assumption|].
  unfold build_features_df. rewrite HX. simpl. unfold align. rewrite Hnames.
  apply align_names; assumption.
Qed.

(** X1: with the model's names declared, the aligned row lists, for each
    name in turn, the value of the encoded column of that name, and 0 for a
    name no encoded column has. *)
Theorem aligned_row_closed_form
    (schema : ModelSchema) (raw : RawInput) (names : list str)
    (Hnames : feature_names_in schema = Some names) :
  exists X_local,
    encode schema raw = Ok X_local /\
    build_features_df schema raw =
    Ok (List.map
          (fun c => (c, match Dict.getitem X_local c with
                        | Ok v => v | Raise _ => 0 end))
          names).
Proof. apply build_with_names. assumption. Qed.

Lemma aligned_row_closed_form_witness :
  exists X_local,
    encode {| expected_features := Some 12;
              feature_names_in := Some [py "stories"; py "pool"; py "stories"] |}
           default_input = Ok X_local /\
    build_features_df
      {| expected_features := Some 12;
         feature_names_in := Some [py "stories"; py "pool"; py "stories"] |}
      default_input =
    Ok (List.map
          (fun c => (c, match Dict.getitem X_local c with
                        | Ok v => v | Raise _ => 0 end))
          [py "stories"; py "pool"; py "stories"]).
Proof.
  apply (aligned_row_closed_form
           {| expected_features := Some 12;
              feature_names_in := Some [py "stories"; py "pool"; py "stories"] |}
           default_input [py "stories"; py "pool"; py "stories"]).
  reflexivity.
Defined.

(** X2: when the declared names are the encoded columns in some order,
    aligning only reorders: the row holds exactly the encoded columns with
    their values, and it is the encoded row itself when the order is the
    same. *)
Theorem aligning_known_columns_reorders
    (schema : ModelSchema) (raw : RawInput) (names : list str)
    (X_local : DataFrame)
    (Hnames : feature_names_in schema = Some names)
    (Henc : encode schema raw = Ok X_local)
    (Hperm : Permutation names (columns X_local)) :
  exists row,
    build_features_df schema raw = Ok row /\
    Permutation row X_local /\
    (names = columns X_local -> row = X_local).
Proof.
  destruct (encode_ok schema raw) as [X [HX Hnd]].
  rewrite Henc in HX. injection HX as <-.
  destruct (build_with_names schema raw names Hnames) as [X' [HX' Hrow]].
  rewrite Henc in HX'. injection HX' as <-.
  eexists. split; [exact Hrow|].
  assert (Hid : List.map
                  (fun c => (c, match Dict.getitem X_local c with
                                | Ok v => v | Raise _ => 0 end))
                  (columns X_local) = X_local).
  { unfold columns. rewrite map_map.
    transitivity (List.map (fun kv : str * Z => kv) X_local);
      [|apply map_id].
    apply map_ext_in.
    intros kv Hkv. rewrite (getitem_of_member X_local kv Hnd Hkv).
    destruct kv; reflexivity. }
  split.
  - eapply perm_trans; [apply Permutation_map; exact Hperm|].
    rewrite Hid. apply Permutation_refl.
  - intros ->. exact Hid.
Qed.

Lemma aligning_known_columns_witness :
  exists row,
    build_features_df
      {| expected_features := Some 12;
         feature_names_in :=
           Some (rev (columns (base_vals default_input ++
                               [(py "furnishingstatus", 0)]))) |}
      default_input = Ok row /\
    Permutation row (base_vals default_input ++ [(py "furnishingstatus", 0)]) /\
    (rev (columns (base_vals default_input ++ [(py "furnishingstatus", 0)]))
     = columns (base_vals default_input ++ [(py "furnishingstatus", 0)]) ->
     row = base_vals default_input ++ [(py "furnishingstatus", 0)]).
Proof.
  apply (aligning_known_columns_reorders
           {| expected_features := Some 12;
              feature_names_in :=
                Some (rev (columns (base_vals default_input ++
                                    [(py "furnishingstatus", 0)]))) |}
           default_input
           (rev (columns (base_vals default_input ++
                          [(py "furnishingstatus", 0)])))
           (base_vals default_input ++ [(py "furnishingstatus", 0)])).
  - reflexivity.
  - reflexivity.
  - apply Permutation_sym, Permutation_rev.
Defined.

Lemma Ok_inj {E A : Type} (a b : A) : @Ok E A a = Ok b -> a = b.
Proof. congruence. Qed.

Lemma getitem_tail_irrelevant (B T1 T2 : DataFrame) (c : str) :
  ~ In c (columns T1) -> ~ In c (columns T2) ->
  Dict.getitem (B ++ T1) c = Dict.getitem (B ++ T2) c.
Proof.
  intros H1 H2. destruct (in_dec str_eq_dec c (columns B)) as [HB|HB].
  - rewrite !getitem_app_l by assumption. reflexivity.
  - rewrite !getitem_app_r by assumption.
    rewrite !getitem_absent by assumption. reflexivity.
Qed.

(** X3: the furnishing status reaches the model only through the column(s)
    of the encoding chosen from the column count. When the declared names
    lack them (12 expected columns but no [furnishingstatus] among the names,
    or another count and neither indicator among the names), the aligned row
    is the same whatever the furnishing status. *)
Theorem furnishing_lost_on_name_mismatch
    (schema : ModelSchema) (raw : RawInput) (names : list str)
    (other : Furnishing)
    (Hnames : feature_names_in schema = Some names)
    (Hmismatch :
       (expected_features schema = Some 12 /\
        ~ In (py "furnishingstatus") names) \/
       (expected_features schema <> Some 12 /\
        ~ In (py "furnishingstatus_furnished") names /\
        ~ In (py "furnishingstatus_semi-furnished") names)) :
  exists row,
    build_features_df schema raw = Ok row /\
    build_features_df schema
      {| area := area raw; bedrooms := bedrooms raw;
         bathrooms := bathrooms raw; stories := stories raw;
         parking := parking raw; mainroad := mainroad raw;
         guestroom := guestroom raw; basement := basement raw;
         hotwaterheating := hotwaterheating raw;
         airconditioning := airconditioning raw; prefarea := prefarea raw;
         furnishingstatus := other; location := location raw |} = Ok row.
Proof.
  set (raw' := {| area := area raw; furnishingstatus := other |}).
  assert (Hbase : base_vals raw' = base_vals raw) by reflexivity.
  destruct (build_with_names schema raw names Hnames) as [X [HX Hrow]].
  destruct (build_with_names schema raw' names Hnames) as [X' [HX' Hrow']].
  eexists. split; [exact Hrow|]. rewrite Hrow'. f_equal.
  apply map_ext_in. intros c Hc. f_equal.
  assert (Hw : wants_label schema raw' = wants_label schema raw) by reflexivity.
  unfold encode in HX, HX'. rewrite Hw in HX'.
  pose proof (wants_label_iff schema raw) as Hiff.
  destruct Hmismatch as [[H12 Hno] | [H12 [Hno1 Hno2]]].
  - apply Hiff in H12. rewrite H12 in HX, HX'.
    rewrite label_frame_eq in HX, HX'. rewrite Hbase in HX'.
    apply Ok_inj in HX, HX'. subst X X'.
    rewrite (getitem_tail_irrelevant (base_vals raw) _
               [(py "furnishingstatus",
                 match furnishingstatus raw with
                 | Furnished => 0 | SemiFurnished => 1 | Unfurnished => 2
                 end)] c); [reflexivity| |];
      simpl; intros [<-|[]]; contradiction.
  - destruct (wants_label schema raw);
      [exfalso; apply H12, Hiff; reflexivity|].
    rewrite onehot_frame_eq in HX, HX'. rewrite Hbase in HX'.
    apply Ok_inj in HX, HX'. subst X X'.
    rewrite (getitem_tail_irrelevant (base_vals raw) _
               [(py "furnishingstatus_furnished",
                 match furnishingstatus raw with Furnished => 1 | _ => 0 end);
                (py "furnishingstatus_semi-furnished",
                 match furnishingstatus raw with SemiFurnished => 1 | _ => 0 end)]
               c); [reflexivity| |];
      simpl; intros [<-|[<-|[]]]; contradiction.
Qed.

Lemma furnishing_lost_witness :
  exists row,
    build_features_df
      {| expected_features := Some 12;
         feature_names_in :=
           Some [py "area"; py "furnishingstatus_furnished"] |}
      default_input = Ok row /\
    build_features_df
      {| expected_features := Some 12;
         feature_names_in :=
           Some [py "area"; py "furnishingstatus_furnished"] |}
      {| area := 1500; bedrooms := 3; bathrooms := 2; stories := 2;
         parking := 1; mainroad := Yes; guestroom := Yes; basement := Yes;
         hotwaterheating := Yes; airconditioning := Yes; prefarea := Yes;
         furnishingstatus := Unfurnished; location := [] |} = Ok row.
Proof.
  apply (furnishing_lost_on_name_mismatch
           {| expected_features := Some 12;
              feature_names_in :=
                Some [py "area"; py "furnishingstatus_furnished"] |}
           default_input [py "area"; py "furnishingstatus_furnished"]
           Unfurnished).
  - reflexivity.
  - left. split; [reflexivity|].
    vm_compute. intros [H|[H|[]]]; discriminate.
Defined.

End AlignerMore.

(** ** More on the Home tab and the chart *)

Module HomeMore.
Import Frame Aligner App Chart.

(** X4: when the model returns a price and the price formats, the handler
    shows the estimate, naming the location or "your city", and appends one
    entry to the history, with the location or "Unknown", the five numbers
    of the form and the price text; nothing else changes. *)
Theorem successful_prediction_recorded
    (price : Type)
    (predict : DataFrame -> Result PyExn price)
    (format_price : price -> Result PyExn str)
    (raw : RawInput) (X : DataFrame) (w : World) (p : price) (shown : str)
    (Hpredict : predict X = Ok p)
    (Hformat : format_price p = Ok shown) :
  predict_price price predict format_price raw X true w =
  (Ok tt,
   {| session_state :=
        {| logged_in := logged_in (session_state w);
           page := page (session_state w);
           history :=
             history (session_state w) ++
             [{| h_Location := match location raw with
                               | [] => py "Unknown" | _ => location raw end;
                 h_Area := area raw; h_Bedrooms := bedrooms raw;
                 h_Bathrooms := bathrooms raw; h_Stories := stories raw;
                 h_Parking := parking raw;
                 h_Predicted_Price := rupee ++ shown |}];
           dark_mode := dark_mode (session_state w);
           feedback_submitted := feedback_submitted (session_state w) |};
      feedback_json := feedback_json w;
      screen :=
        screen w ++
        [success (py "Estimated House Price in "
                  ++ match location raw with
                     | [] => py "your city" | _ => location raw end
                  ++ py ": **" ++ rupee ++ shown ++ py "**")] |}).
Proof.
  unfold predict_price, try_except, bind, lift. rewrite Hpredict.
  cbv beta iota. rewrite Hformat. cbv beta iota.
  unfold show, history_append, update_session, estimate, or_else.
  destruct (location raw); reflexivity.
Qed.

Lemma successful_prediction_witness :
  predict_price Z (fun _ => Ok 4200000) (fun _ => Ok (py "4,200,000"))
    default_input (onehot_frame default_input) true
    {| session_state := initial_session; feedback_json := Missing;
       screen := [] |}
  = (Ok tt,
     {| session_state :=
          {| logged_in := false; page := py "Welcome";
             history :=
               [{| h_Location := py "Unknown"; h_Area := 1500;
                   h_Bedrooms := 3; h_Bathrooms := 2; h_Stories := 2;
                   h_Parking := 1;
                   h_Predicted_Price := rupee ++ py "4,200,000" |}];
             dark_mode := false; feedback_submitted := false |};
        feedback_json := Missing;
        screen :=
          [success (py "Estimated House Price in " ++ py "your city"
                    ++ py ": **" ++ rupee ++ py "4,200,000" ++ py "**")] |}).
Proof.
  apply (successful_prediction_recorded Z
           (fun _ => Ok 4200000) (fun _ => Ok (py "4,200,000"))
           default_input (onehot_frame default_input)
           {| session_state := initial_session; feedback_json := Missing;
              screen := [] |}
           4200000 (py "4,200,000")); reflexivity.
Defined.

Lemma replace_from_absent (a : char) (old' new s : str) :
  ~ In a s -> replace_from 0 (a :: old') new s = s.
Proof.
  induction s as [|c s IH]; intros Hnot; [reflexivity|].
  simpl. destruct (N.eqb a c) eqn:E.
  - apply N.eqb_eq in E. subst. exfalso. apply Hnot. left; reflexivity.
  - simpl. f_equal. apply IH. intros H. apply Hnot. right; assumption.
Qed.

Lemma replace_char_by_nothing (a : char) (s : str) :
  replace_from 0 [a] [] s = List.filter (fun c => negb (N.eqb a c)) s.
Proof.
  induction s as [|c s IH]; [reflexivity|].
  simpl. destruct (N.eqb a c); simpl.
  - exact IH.
  - f_equal. exact IH.
Qed.

(** X5: the chart reads a price back from the text the history keeps: for
    a formatted price free of the rupee sign, removing the sign with its
    space and then the commas leaves the formatted price without its
    commas. *)
Theorem clean_price_of_history_text (shown : str)
    (Hsign : ~ In 8360%N shown) :
  clean_price (rupee ++ shown) =
  List.filter (fun c => negb (N.eqb 44 c)) shown.
Proof.
  unfold clean_price, replace.
  assert (H1 : replace_from 0 rupee [] (rupee ++ shown) = shown).
  { unfold rupee. simpl. apply replace_from_absent. assumption. }
  rewrite H1. apply replace_char_by_nothing.
Qed.

Lemma clean_price_witness :
  clean_price (rupee ++ py "4,200,000") =
  List.filter (fun c => negb (N.eqb 44 c)) (py "4,200,000").
Proof.
  apply (clean_price_of_history_text (py "4,200,000")).
  vm_compute. intuition discriminate.
Defined.

End HomeMore.

(** ** More on the feedback store and its board *)

Module FeedbackMore.
Import App StripFacts AppFacts Board.

(** The world a submission with a usable text leaves. *)
Lemma feedback_form_stores
    (w : World) (name : str) (rating : Z) (feedback now : str)
    (items : list json) :
  truthy (strip feedback) = true ->
  fst (load_feedback w) = Ok (JList items) ->
  feedback_form name rating feedback true now w =
  (Ok tt,
   {| session_state :=
        {| logged_in := logged_in (session_state w);
           page := page (session_state w);
           history := history (session_state w);
           dark_mode := dark_mode (session_state w);
           feedback_submitted := true |};
      feedback_json :=
        Present (Dumped (JList (items ++ [new_feedback name rating feedback now])));
      screen := screen w ++ [success thanks] |}).
Proof.
  intros Ht Hl. unfold feedback_form. rewrite Ht.
  unfold bind at 1. rewrite (load_feedback_value w _ Hl). reflexivity.
Qed.

(** The world a submission with a blank text leaves. *)
Lemma feedback_form_warns
    (w : World) (name : str) (rating : Z) (feedback now : str) :
  truthy (strip feedback) = false ->
  feedback_form name rating feedback true now w =
  (Ok tt, {| session_state := session_state w;
             feedback_json := feedback_json w;
             screen := screen w ++ [warning please] |}).
Proof. intros Ht. unfold feedback_form. rewrite Ht. reflexivity. Qed.

(** X6: after any number of submissions, one after the other, the store
    holds what it held followed by one record for each submission whose text
    was not blank, in the order they were made; blank ones leave no trace. *)
Theorem submissions_accumulate_in_order
    (subs : list (str * Z * str * str)) (w : World) (prior : list json)
    (Hprior : fst (load_feedback w) = Ok (JList prior)) :
  fst (load_feedback
         (fold_left
            (fun w1 sub =>
               match sub with
               | (name, rating, feedback, now) =>
                   snd (feedback_form name rating feedback true now w1)
               end)
            subs w))
  = Ok (JList
          (prior ++
           List.map
             (fun sub =>
                match sub with
                | (name, rating, feedback, now) =>
                    new_feedback name rating feedback now
                end)
             (List.filter
                (fun sub =>
                   match sub with
                   | (_, _, feedback, _) => truthy (strip feedback)
                   end)
                subs))).
Proof.
  revert w prior Hprior.
  induction subs as [|[[[name rating] feedback] now] subs IH];
    intros w prior Hprior.
  - simpl. rewrite app_nil_r. assumption.
  - cbn [fold_left filter].
    destruct (truthy (strip feedback)) eqn:Ht.
    + rewrite (feedback_form_stores w name rating feedback now prior Ht Hprior).
      cbn [snd].
      rewrite (IH _ (prior ++ [new_feedback name rating feedback now])).
      * cbn [map]. rewrite <- app_assoc. reflexivity.
      * rewrite load_feedback_run. reflexivity.
    + rewrite (feedback_form_warns w name rating feedback now Ht).
      cbn [snd]. apply IH.
      rewrite load_feedback_run in *. exact Hprior.
Qed.

Lemma submissions_accumulate_witness :
  fst (load_feedback
         (fold_left
            (fun w1 sub =>
               match sub with
               | (name, rating, feedback, now) =>
                   snd (feedback_form name rating feedback true now w1)
               end)
            [(py "Ali", 4, py "Nice", py "2025-09-01 10:15:00");
             ([], 2, py "   ", py "2025-09-01 10:16:00");
             ([], 5, py "Great", py "2025-09-01 10:17:00")]
            {| session_state := initial_session;
               feedback_json := Present (Dumped (JList [JStr (py "old")]));
               screen := [] |}))
  = Ok (JList
          [JStr (py "old");
           new_feedback (py "Ali") 4 (py "Nice") (py "2025-09-01 10:15:00");
           new_feedback [] 5 (py "Great") (py "2025-09-01 10:17:00")]).
Proof.
  apply (submissions_accumulate_in_order
           [(py "Ali", 4, py "Nice", py "2025-09-01 10:15:00");
            ([], 2, py "   ", py "2025-09-01 10:16:00");
            ([], 5, py "Great", py "2025-09-01 10:17:00")]
           {| session_state := initial_session;
              feedback_json := Present (Dumped (JList [JStr (py "old")]));
              screen := [] |}
           [JStr (py "old")]).
  reflexivity.
Defined.

(** X7: a file that cannot be read as JSON counts as empty, so the next
    accepted submission replaces it by a list of one record: whatever the
    file held is gone. *)
Theorem unreadable_store_is_overwritten
    (w : World) (e : PyExn) (name : str) (rating : Z) (feedback now : str)
    (Hfile : feedback_json w = Present (Garbled e))
    (Htext : strip feedback <> []) :
  feedback_form name rating feedback true now w =
  (Ok tt,
   {| session_state :=
        {| logged_in := logged_in (session_state w);
           page := page (session_state w);
           history := history (session_state w);
           dark_mode := dark_mode (session_state w);
           feedback_submitted := true |};
      feedback_json :=
        Present (Dumped (JList [new_feedback name rating feedback now]));
      screen := screen w ++ [success thanks] |}).
Proof.
  apply (feedback_form_stores w name rating feedback now []).
  - destruct (strip feedback); [congruence | reflexivity].
  - rewrite load_feedback_run, Hfile. reflexivity.
Qed.

Lemma unreadable_store_witness :
  feedback_form (py "Ali") 4 (py "Nice") true (py "2025-09-01 10:15:00")
    {| session_state := initial_session;
       feedback_json :=
         Present (Garbled {| exn_class := py "JSONDecodeError";
                             is_Exception := true;
                             exn_text := py "Expecting value" |});
       screen := [] |}
  = (Ok tt,
     {| session_state :=
          {| logged_in := false; page := py "Welcome"; history := [];
             dark_mode := false; feedback_submitted := true |};
        feedback_json :=
          Present (Dumped (JList
            [new_feedback (py "Ali") 4 (py "Nice") (py "2025-09-01 10:15:00")]));
        screen := [success thanks] |}).
Proof.
  apply (unreadable_store_is_overwritten
           {| session_state := initial_session;
              feedback_json :=
                Present (Garbled {| exn_class := py "JSONDecodeError";
                                    is_Exception := true;
                                    exn_text := py "Expecting value" |});
              screen := [] |}
           {| exn_class := py "JSONDecodeError"; is_Exception := true;
              exn_text := py "Expecting value" |}
           (py "Ali") 4 (py "Nice") (py "2025-09-01 10:15:00")).
  - reflexivity.
  - vm_compute. discriminate.
Defined.

End FeedbackMore.

Module BoardFacts.
Import App StripFacts AppFacts Board FeedbackMore.

Lemma times_in_range (s : str) (k : Z) :
  -9223372036854775808 <= k <= 9223372036854775807 ->
  times s (JInt k) = Ok (List.concat (List.repeat s (Z.to_nat k))).
Proof.
  intros [Hlo Hhi]. unfold times.
  apply Z.leb_le in Hlo. apply Z.leb_le in Hhi. rewrite Hlo, Hhi. reflexivity.
Qed.

(** The loop, started at index [i], shows the first [5 - i] items. *)
Lemma board_loop_shows (items : list json) :
  forall (i : Z) (cards : list Shown),
    0 <= i <= 4 ->
    Forall2 (fun fb c => render fb = Ok c)
            (firstn (Z.to_nat (5 - i)) items) cards ->
    board_loop i items = (cards, Ok tt).
Proof.
  induction items as [|fb rest IH]; intros i cards Hi Hall.
  - rewrite firstn_nil in Hall. inversion Hall. reflexivity.
  - replace (Z.to_nat (5 - i)) with (S (Z.to_nat (5 - (i + 1)))) in Hall by lia.
    cbn [firstn] in Hall.
    remember (firstn (Z.to_nat (5 - (i + 1))) rest) as shown eqn:Hshown.
    inversion Hall as [|? c ? cs Hc Hcs]; subst.
    cbn [board_loop]. rewrite Hc.
    destruct (4 <=? i) eqn:E.
    + apply Z.leb_le in E.
      assert (Hz : Z.to_nat (5 - (i + 1)) = 0%nat) by lia.
      rewrite Hz in Hcs. cbn [firstn] in Hcs. inversion Hcs; subst.
      reflexivity.
    + apply Z.leb_gt in E.
      rewrite (IH (i + 1) cs); [reflexivity | lia | assumption].
Qed.


(** X8: the board shows the five newest records of the store, the newest
    first, and none of the older ones; it is enough that these five can be
    rendered, to cards of five stars at most, the most the form gives. *)
Theorem board_shows_five_newest
    (float_nonzero : str -> bool) (w : World)
    (records : list json) (cards : list Shown)
    (Hstore : fst (load_feedback w) = Ok (JList records))
    (Hsome : records <> [])
    (Hcards : Forall2 (fun fb c => render fb = Ok c)
                      (firstn 5 (rev records)) cards)
    (Hstars : Forall (fun c => (List.length (stars_of c) <= 5)%nat) cards) :
  show_feedback float_nonzero w = (cards, Ok tt) /\
  (List.length cards <= 5)%nat.
Proof.
  split.
  - unfold show_feedback. rewrite Hstore. unfold feedback_board.
    destruct records as [|r records]; [congruence|].
    cbn [json_truthy reversed]. apply board_loop_shows; [lia|exact Hcards].
  - apply Forall2_length in Hcards. rewrite <- Hcards.
    rewrite length_firstn. lia.
Qed.

Lemma board_shows_five_newest_witness :
  show_feedback (fun _ => true)
    {| session_state := initial_session;
       feedback_json :=
         Present (Dumped (JList
           [JNull; JObj [(py "rating", JInt 1)]; JObj []; JObj []; JObj [];
            JObj [(py "name", JStr (py "Ali")); (py "rating", JInt 2)]]));
       screen := [] |}
  = ([card (JStr (py "Ali")) (star ++ star) (JStr []) (JStr []);
      card (JStr (py "Anonymous")) (star ++ star ++ star ++ star ++ star)
           (JStr []) (JStr []);
      card (JStr (py "Anonymous")) (star ++ star ++ star ++ star ++ star)
           (JStr []) (JStr []);
      card (JStr (py "Anonymous")) (star ++ star ++ star ++ star ++ star)
           (JStr []) (JStr []);
      card (JStr (py "Anonymous")) star (JStr []) (JStr [])],
     Ok tt).
Proof.
  refine (proj1
    (board_shows_five_newest (fun _ => true)
       {| session_state := initial_session;
          feedback_json :=
            Present (Dumped (JList
              [JNull; JObj [(py "rating", JInt 1)]; JObj []; JObj []; JObj [];
               JObj [(py "name", JStr (py "Ali")); (py "rating", JInt 2)]]));
          screen := [] |}
       [JNull; JObj [(py "rating", JInt 1)]; JObj []; JObj []; JObj [];
        JObj [(py "name", JStr (py "Ali")); (py "rating", JInt 2)]]
       _ _ _ _ _)).
  - reflexivity.
  - discriminate.
  - repeat constructor.
  - repeat (constructor; [vm_compute; lia|]). constructor.
Defined.



(** X10: right after an accepted submission the board, drawn in the same
    run, has the new feedback as its first card: the name given or
    "Anonymous", as many stars as the rating, the text and the time. *)
Theorem new_feedback_tops_the_board
    (float_nonzero : str -> bool) (w : World)
    (name : str) (rating : Z) (feedback now : str) (prior : list json)
    (Hrating : 1 <= rating <= 5)
    (Htext : strip feedback <> [])
    (Hprior : fst (load_feedback w) = Ok (JList prior)) :
  exists below outcome,
    List.length (List.concat (List.repeat star (Z.to_nat rating)))
    = Z.to_nat rating /\
    show_feedback float_nonzero
      (snd (feedback_form name rating feedback true now w))
    = (card (JStr (match name with [] => py "Anonymous" | _ => name end))
            (List.concat (List.repeat star (Z.to_nat rating)))
            (JStr feedback) (JStr now) :: below,
       outcome).
Proof.
  assert (Ht : truthy (strip feedback) = true)
    by (destruct (strip feedback); [congruence | reflexivity]).
  assert (Hlen : List.length (List.concat (List.repeat star (Z.to_nat rating)))
                 = Z.to_nat rating).
  { generalize (Z.to_nat rating) as n.
    induction n as [|n IHn]; simpl; [reflexivity | f_equal; exact IHn]. }
  rewrite (feedback_form_stores w name rating feedback now prior Ht Hprior).
  cbn [snd]. unfold show_feedback. rewrite load_feedback_run.
  cbn [fst feedback_json]. unfold feedback_board.
  assert (Htruthy : json_truthy float_nonzero
            (JList (prior ++ [new_feedback name rating feedback now])) = true)
    by (destruct prior; reflexivity).
  rewrite Htruthy. cbn [reversed]. rewrite rev_app_distr.
  cbn [rev app board_loop].
  assert (Hrender : render (new_feedback name rating feedback now) =
            Ok (card (JStr (match name with [] => py "Anonymous" | _ => name end))
                     (List.concat (List.repeat star (Z.to_nat rating)))
                     (JStr feedback) (JStr now))).
  { transitivity
      (stars <- times star (JInt rating) ;;
       Ok (card (JStr (match name with [] => py "Anonymous" | _ => name end))
                stars (JStr feedback) (JStr now)))%result;
      [destruct name; reflexivity|].
    rewrite (times_in_range star rating) by lia. reflexivity. }
  rewrite Hrender. cbn [Z.leb Z.compare].
  destruct (board_loop (0 + 1) (rev prior)) as [cs r].
  exists cs, r. split; [exact Hlen | reflexivity].
Qed.

Lemma new_feedback_tops_witness :
  exists below outcome,
    List.length (List.concat (List.repeat star (Z.to_nat 5))) = Z.to_nat 5 /\
    show_feedback (fun _ => true)
      (snd (feedback_form [] 5 (py "Great") true (py "2025-09-01 10:15:00")
              {| session_state := initial_session; feedback_json := Missing;
                 screen := [] |}))
    = (card (JStr (py "Anonymous"))
            (List.concat (List.repeat star (Z.to_nat 5)))
            (JStr (py "Great")) (JStr (py "2025-09-01 10:15:00")) :: below,
       outcome).
Proof.
  apply (new_feedback_tops_the_board (fun _ => true)
           {| session_state := initial_session; feedback_json := Missing;
              screen := [] |}
           [] 5 (py "Great") (py "2025-09-01 10:15:00") []).
  - lia.
  - vm_compute. discriminate.
  - reflexivity.
Defined.

(** X11: with no feedback file, with a file that cannot be read as JSON,
    or with an empty list in it, the board shows the notice that there is no
    feedback yet, and no error. *)
Theorem empty_board_notice
    (float_nonzero : str -> bool) (w : World)
    (Hempty : feedback_json w = Missing \/
              (exists e, feedback_json w = Present (Garbled e)) \/
              feedback_json w = Present (Dumped (JList []))) :
  show_feedback float_nonzero w = ([info no_feedback_yet], Ok tt).
Proof.
  unfold show_feedback. rewrite load_feedback_run.
  destruct Hempty as [-> | [[e ->] | ->]]; reflexivity.
Qed.

Lemma empty_board_witness :
  show_feedback (fun _ => true)
    {| session_state := initial_session;
       feedback_json :=
         Present (Garbled {| exn_class := py "JSONDecodeError";
                             is_Exception := true;
                             exn_text := py "Expecting value" |});
       screen := [] |}
  = ([info no_feedback_yet], Ok tt).
Proof.
  apply (empty_board_notice (fun _ => true)
           {| session_state := initial_session;
              feedback_json :=
                Present (Garbled {| exn_class := py "JSONDecodeError";
                                    is_Exception := true;
                                    exn_text := py "Expecting value" |});
              screen := [] |}).
  right. left. eexists. reflexivity.
Defined.

End BoardFacts.

(** ** Pages, history and store over a whole session *)

Module PagesFacts.
Import Frame Aligner App StripFacts AppFacts FeedbackMore Pages.

(** The predict button leaves everything but the screen as it is, except
    that the history may have gained entries at its end. *)
Lemma predict_price_effect
    (price : Type)
    (predict : DataFrame -> Result PyExn price)
    (format_price : price -> Result PyExn str)
    (raw : RawInput) (X : DataFrame) (pressed : bool) (w : World) :
  exists more shown,
    snd (predict_price price predict format_price raw X pressed w) =
    {| session_state :=
         {| logged_in := logged_in (session_state w);
            page := page (session_state w);
            history := history (session_state w) ++ more;
            dark_mode := dark_mode (session_state w);
            feedback_submitted := feedback_submitted (session_state w) |};
       feedback_json := feedback_json w;
       screen := shown |}.
Proof.
  destruct w as [[li pg hi dm fs] file scr].
  unfold predict_price. destruct pressed.
  - unfold try_except, bind, lift.
    destruct (predict X) as [p|e1].
    + destruct (format_price p) as [shown|e2] eqn:Hf; cbn.
      * eexists; eexists; reflexivity.
      * destruct (is_Exception e2); cbn;
          exists []; eexists; rewrite app_nil_r; reflexivity.
    + cbn. destruct (is_Exception e1); cbn;
        exists []; eexists; rewrite app_nil_r; reflexivity.
  - exists [], scr. cbn. rewrite app_nil_r. reflexivity.
Qed.

(** The feedback form leaves the page, the login and the history as they
    are. *)
Lemma feedback_form_effect
    (name : str) (rating : Z) (feedback : str) (submitted : bool) (now : str)
    (w : World) :
  exists flag file shown,
    snd (feedback_form name rating feedback submitted now w) =
    {| session_state :=
         {| logged_in := logged_in (session_state w);
            page := page (session_state w);
            history := history (session_state w);
            dark_mode := dark_mode (session_state w);
            feedback_submitted := flag |};
       feedback_json := file;
       screen := shown |}.
Proof.
  destruct w as [[li pg hi dm fs] file scr].
  unfold feedback_form. destruct submitted; [|do 3 eexists; reflexivity].
  destruct (truthy (strip feedback)); [|do 3 eexists; reflexivity].
  unfold bind at 1. rewrite load_feedback_run. cbn [feedback_json].
  destruct file as [|[v|e]|e']; try (do 3 eexists; reflexivity).
  destruct v; do 3 eexists; reflexivity.
Qed.

Lemma navigate_pages (r : Run) (s : Session) :
  (page s = py "Welcome" /\ logged_in s = false) \/
  (page s = py "App" /\ logged_in s = true) ->
  (page (navigate r s) = py "Welcome" /\ logged_in (navigate r s) = false) \/
  (page (navigate r s) = py "App" /\ logged_in (navigate r s) = true).
Proof.
  destruct s as [li pg hi dm fs]. unfold navigate, view, set_dark_mode. cbn.
  intros [[-> ->] | [-> ->]]; cbn.
  - destruct (get_started_pressed r); cbn; tauto.
  - destruct (reaches_logout r && confirm_logout_pressed r); cbn; tauto.
Qed.

Lemma navigate_history (r : Run) (s : Session) :
  history (navigate r s) = history s.
Proof.
  destruct s as [li pg hi dm fs]. unfold navigate, view, set_dark_mode.
  cbn [page logged_in].
  destruct (str_eqb pg (py "Welcome")).
  - destruct (get_started_pressed r); reflexivity.
  - destruct li; [|reflexivity].
    destruct (reaches_logout r && confirm_logout_pressed r); reflexivity.
Qed.

(** X12: in every state a session can reach from the defaults, the user
    is logged in exactly when the page is "App" and logged out exactly when
    it is "Welcome"; so one of the two branches of the script always runs and
    the page is never left empty. *)
Theorem session_is_welcome_or_app (w w' : World)
    (Hstart : session_state w = initial_session)
    (Hsteps : steps w w') :
  (page (session_state w') = py "Welcome" /\
   logged_in (session_state w') = false /\
   view (session_state w') = welcome_page) \/
  (page (session_state w') = py "App" /\
   logged_in (session_state w') = true /\
   view (session_state w') = main_app).
Proof.
  assert (Hinv : (page (session_state w') = py "Welcome" /\
                  logged_in (session_state w') = false) \/
                 (page (session_state w') = py "App" /\
                  logged_in (session_state w') = true)).
  { induction Hsteps as [w|w w1 w2 Hs IH Hstep].
    - rewrite Hstart. left. split; reflexivity.
    - specialize (IH Hstart). destruct Hstep.
      + cbn. apply navigate_pages. assumption.
      + destruct (predict_price_effect price predict format_price raw X pressed w0)
          as [more [shown ->]]. cbn. assumption.
      + destruct (feedback_form_effect name rating feedback submitted now w0)
          as [flag [file [shown ->]]]. cbn. assumption. }
  unfold view. destruct Hinv as [[Hp Hl] | [Hp Hl]]; rewrite Hp, Hl.
  - left. repeat split.
  - right. repeat split.
Qed.

Lemma session_is_welcome_or_app_witness :
  (page (session_state
           (with_session
              (navigate {| toggle := true; get_started_pressed := true;
                           reaches_logout := false;
                           confirm_logout_pressed := false |})
              {| session_state := initial_session; feedback_json := Missing;
                 screen := [] |})) = py "Welcome" /\
   logged_in (session_state
           (with_session
              (navigate {| toggle := true; get_started_pressed := true;
                           reaches_logout := false;
                           confirm_logout_pressed := false |})
              {| session_state := initial_session; feedback_json := Missing;
                 screen := [] |})) = false /\
   view (session_state
           (with_session
              (navigate {| toggle := true; get_started_pressed := true;
                           reaches_logout := false;
                           confirm_logout_pressed := false |})
              {| session_state := initial_session; feedback_json := Missing;
                 screen := [] |})) = welcome_page) \/
  (page (session_state
           (with_session
              (navigate {| toggle := true; get_started_pressed := true;
                           reaches_logout := false;
                           confirm_logout_pressed := false |})
              {| session_state := initial_session; feedback_json := Missing;
                 screen := [] |})) = py "App" /\
   logged_in (session_state
           (with_session
              (navigate {| toggle := true; get_started_pressed := true;
                           reaches_logout := false;
                           confirm_logout_pressed := false |})
              {| session_state := initial_session; feedback_json := Missing;
                 screen := [] |})) = true /\
   view (session_state
           (with_session
              (navigate {| toggle := true; get_started_pressed := true;
                           reaches_logout := false;
                           confirm_logout_pressed := false |})
              {| session_state := initial_session; feedback_json := Missing;
                 screen := [] |})) = main_app).
Proof.
  apply (session_is_welcome_or_app
           {| session_state := initial_session; feedback_json := Missing;
              screen := [] |}).
  - reflexivity.
  - eapply steps_more; [apply steps_none | apply step_navigate].
Defined.

(** X13: nothing a session does removes or alters an entry of the
    history: whatever happens, logging out and in again included, the
    history is the earlier history with entries added at its end. *)
Theorem history_only_grows (w w' : World) (Hsteps : steps w w') :
  exists more,
    history (session_state w') = history (session_state w) ++ more.
Proof.
  induction Hsteps as [w|w w1 w2 Hs [more IH] Hstep].
  - exists []. rewrite app_nil_r. reflexivity.
  - destruct Hstep.
    + exists more. cbn [with_session session_state].
      rewrite navigate_history. exact IH.
    + destruct (predict_price_effect price predict format_price raw X pressed w0)
        as [more' [shown ->]]. cbn. exists (more ++ more').
      rewrite IH, app_assoc. reflexivity.
    + destruct (feedback_form_effect name rating feedback submitted now w0)
        as [flag [file [shown ->]]]. cbn. exists more. assumption.
Qed.

Lemma history_only_grows_witness :
  exists more,
    history (session_state
      (with_session
         (navigate {| toggle := false; get_started_pressed := false;
                      reaches_logout := true;
                      confirm_logout_pressed := true |})
         {| session_state :=
              {| logged_in := true; page := py "App";
                 history :=
                   [{| h_Location := py "Unknown"; h_Area := 1500;
                       h_Bedrooms := 3; h_Bathrooms := 2; h_Stories := 2;
                       h_Parking := 1;
                       h_Predicted_Price := rupee ++ py "4,200,000" |}];
                 dark_mode := false; feedback_submitted := false |};
            feedback_json := Missing; screen := [] |}))
    = [{| h_Location := py "Unknown"; h_Area := 1500;
          h_Bedrooms := 3; h_Bathrooms := 2; h_Stories := 2;
          h_Parking := 1;
          h_Predicted_Price := rupee ++ py "4,200,000" |}] ++ more.
Proof.
  apply (history_only_grows
           {| session_state :=
                {| logged_in := true; page := py "App";
                   history :=
                     [{| h_Location := py "Unknown"; h_Area := 1500;
                         h_Bedrooms := 3; h_Bathrooms := 2; h_Stories := 2;
                         h_Parking := 1;
                         h_Predicted_Price := rupee ++ py "4,200,000" |}];
                   dark_mode := false; feedback_submitted := false |};
              feedback_json := Missing; screen := [] |}).
  eapply steps_more; [apply steps_none | apply step_navigate].
Defined.

(** X14: the feedback store only grows at its end: if it reads as a list
    of records at some point of a session, then at every later point it reads
    as that list followed by further records. *)
Theorem store_only_grows (w w' : World) (records : list json)
    (Hstore : fst (load_feedback w) = Ok (JList records))
    (Hsteps : steps w w') :
  exists more,
    fst (load_feedback w') = Ok (JList (records ++ more)).
Proof.
  induction Hsteps as [w|w w1 w2 Hs IH Hstep].
  - exists []. rewrite app_nil_r. assumption.
  - destruct (IH Hstore) as [more Hmore]. destruct Hstep.
    + exists more. rewrite load_feedback_run in *. exact Hmore.
    + destruct (predict_price_effect price predict format_price raw X pressed w0)
        as [more' [shown ->]]. exists more.
      rewrite load_feedback_run in *. exact Hmore.
    + destruct submitted.
      * destruct (truthy (strip feedback)) eqn:Ht.
        -- rewrite (feedback_form_stores w0 name rating feedback now
                      (records ++ more) Ht Hmore).
           exists (more ++ [new_feedback name rating feedback now]).
           rewrite load_feedback_run, app_assoc. reflexivity.
        -- rewrite (feedback_form_warns w0 name rating feedback now Ht).
           exists more. rewrite load_feedback_run in *. exact Hmore.
      * exists more. exact Hmore.
Qed.

Lemma store_only_grows_witness :
  exists more,
    fst (load_feedback
           (snd (feedback_form [] 5 (py "Great") true (py "2025-09-01 10:15:00")
                   {| session_state :=
                        {| logged_in := true; page := py "App"; history := [];
                           dark_mode := false; feedback_submitted := false |};
                      feedback_json := Present (Dumped (JList [JStr (py "old")]));
                      screen := [] |})))
    = Ok (JList ([JStr (py "old")] ++ more)).
Proof.
  apply (store_only_grows
           {| session_state :=
                {| logged_in := true; page := py "App"; history := [];
                   dark_mode := false; feedback_submitted := false |};
              feedback_json := Present (Dumped (JList [JStr (py "old")]));
              screen := [] |}).
  - reflexivity.
  - eapply steps_more; [apply steps_none | apply step_feedback; reflexivity].
Defined.

End PagesFacts.
